(** * Altanian Coffee: dial-in optimizer and taste-profile recommender

    A shallow embedding of the two services of the repository that carry
    state and algorithms:

    - [src/ai-engine/main.py]: the FastAPI handlers that keep ask/tell
      trials in an Optuna study ([DialIn]);
    - [src/ml_service/recommendations/parameter_optimizer.py] and the
      [/recommend] and [load_models] parts of [src/ml_service/app.py]
      ([Recommender], [MlService]).

    The next-shot endpoint of the first service ([DialInAsk]), the Bayesian
    recommender ([Bayesian]) and the validation and confidence helpers of
    [/predict] ([Prediction]) follow, with their own interfaces for Optuna's
    ask/tell session and for the optimizer.

    Conventions.  Python floats are modelled by rationals ([Q]); the one
    place where the code can meet a NaN (pandas' [std] and [mean]) is
    modelled by [option Q] with [None] for NaN.  Python exceptions are an
    explicit error type threaded through a small error monad.  Optuna,
    scikit-learn, pandas and numpy are not part of the repository: what the
    handlers require of them is collected in the interfaces [Optuna] and
    [SciLib].  The theorems hold for every implementation of these
    interfaces; the module [Reference] gives executable ones, on which the
    handlers are run at concrete inputs. *)

From Stdlib Require Import QArith Qminmax Qabs Qround Lia Lqa List ZArith Bool.
From Stdlib Require Import DecimalString.
From stdpp Require Import gmap strings.
Import ListNotations.

Local Open Scope string_scope.

(** ** Python values and exceptions *)

(** Exceptions that the modelled code raises or catches by class.
    [Exception] stands for any other class. *)
Inductive exn :=
| HTTPException (status_code : nat) (detail : string)
| KeyError (msg : string)
| ValueError (msg : string)
| IndexError (msg : string)
| TypeError (msg : string)
| Exception (msg : string).

(** [str(e)] *)
Definition str_exn (e : exn) : string :=
  match e with
  | HTTPException _ d => d
  | KeyError m | ValueError m | IndexError m | TypeError m | Exception m => m
  end.

Inductive result (A : Type) :=
| Ok (a : A)
| Raise (e : exn).
Arguments Ok {A} a.
Arguments Raise {A} e.

Definition bind {A B} (r : result A) (k : A -> result B) : result B :=
  match r with
  | Ok a => k a
  | Raise e => Raise e
  end.

Notation "'do' x <- r ; k" := (bind r (fun x => k))
  (at level 10, x name, r at level 100, k at level 200).

Definition is_ok {A} (r : result A) : bool :=
  match r with Ok _ => true | Raise _ => false end.

(** [str(n)] for a Python int *)
Definition str_int (z : Z) : string := NilZero.string_of_int (Z.to_int z).

(** ** The dial-in optimizer, [src/ai-engine/main.py] *)

Module DialIn.

(** [optuna.trial.TrialState]; the handlers only test for [COMPLETE]. *)
Inductive TrialState := RUNNING | COMPLETE | PRUNED | FAIL | WAITING.

Definition is_complete (s : TrialState) : bool :=
  match s with COMPLETE => true | _ => false end.

(** The attributes of a trial that the handlers read. *)
Record FrozenTrial := {
  number : Z;
  state : TrialState;
  value : option Q;
  params : list (string * Q);
  datetime_complete : option string   (* already in ISO format *)
}.

(** The trial storage: one trial list per study name. *)
Abbreviation Storage := (gmap string (list FrozenTrial)).

(** The database behind [get_storage()]: the connection may fail. *)
Inductive Database :=
| Unreachable (err : string)
| Reachable (st : Storage).

(** What the handlers use of Optuna and do not define themselves. *)
Class Optuna := {
  (** message of the [KeyError] of [load_study] for an unknown study *)
  unknown_study_msg : string -> string;
  (** [study.tell(trial, value)]: may raise, and gives the storage after *)
  study_tell : Storage -> string -> FrozenTrial -> Q -> result unit * Storage;
  (** [study.best_trial] *)
  study_best_trial : Storage -> string -> result FrozenTrial;
  (** [round(x, 1)] *)
  round1 : Q -> Q
}.

Record ReportData := {
  rd_bean_id : string;
  rd_user_id : option string;
  rd_method : string;
  rd_trial_number : Z;
  rd_taste_score : Q
}.

Record BestInfo := {
  bi_trial_number : Z;
  bi_parameters : list (string * Q);
  bi_score : option Q;
  bi_timestamp : option string
}.

Record TrialSummary := {
  ts_trial_number : Z;
  ts_parameters : list (string * Q);
  ts_score : option Q
}.

(** The JSON bodies the handlers return, without their [message] text. *)
Inductive ReportResponse :=
| AlreadyCompleted (trial_number : Z) (existing_score : option Q)
| ReportSuccess (trial_number : Z) (score : Q)
    (current_best : TrialSummary) (total_trials : nat).


Inductive StatusResponse :=
| NotStarted (study_name : string) (total_trials : nat)
| Active (study_name : string) (total_trials : nat)
    (best_trial : option BestInfo) (recent_trials : list TrialSummary).

Definition status_of (r : StatusResponse) : string :=
  match r with
  | NotStarted _ _ => "not_started"
  | Active _ _ _ _ => "active"
  end.

Definition total_trials_of (r : StatusResponse) : nat :=
  match r with
  | NotStarted _ n => n
  | Active _ n _ _ => n
  end.

Record BestResponse := {
  br_study_name : string;
  br_best_trial : BestInfo;
  br_total_trials : nat
}.

Definition get_study_name (bean_id : string) (user_id : option string)
    (method : string) : string :=
  match user_id with
  | Some u =>
      (* [if user_id:] is false for the empty string as well *)
      if String.eqb u ""
      then "bean_" ++ bean_id ++ "_" ++ method
      else "user_" ++ u ++ "_bean_" ++ bean_id ++ "_" ++ method
  | None => "bean_" ++ bean_id ++ "_" ++ method
  end.

(** [study.trials] *)
Definition trials (st : Storage) (study_name : string) : list FrozenTrial :=
  default [] (st !! study_name).

(** The loop of [report_result] that looks a trial up by number. *)
Definition find_trial (ts : list FrozenTrial) (n : Z) : option FrozenTrial :=
  List.find (fun t => (number t =? n)%Z) ts.

(** [dict.get(key, 0)] on a trial's [params] *)
Fixpoint params_get (ps : list (string * Q)) (key : string) (d : Q) : Q :=
  match ps with
  | [] => d
  | (k, v) :: ps' => if String.eqb k key then v else params_get ps' key d
  end.

(** [list(study.trials)[-5:]] *)
Definition last5 {A} (l : list A) : list A := skipn (length l - 5) l.

Section Handlers.
Context `{O : Optuna}.

Definition get_storage (db : Database) : result Storage :=
  match db with
  | Reachable st => Ok st
  | Unreachable err =>
      Raise (HTTPException 503 ("Database connection failed: " ++ err))
  end.

(** [optuna.load_study]: the handlers catch its [KeyError] as "the study
    doesn't exist yet". *)
Definition load_study (st : Storage) (study_name : string) : result string :=
  match st !! study_name with
  | Some _ => Ok study_name
  | None => Raise (KeyError (unknown_study_msg study_name))
  end.

(** The [except HTTPException: raise / except Exception as e: raise
    HTTPException(500, ...)] wrapper every handler ends with. *)
Definition reraise {A} (prefix : string) (r : result A) : result A :=
  match r with
  | Ok a => Ok a
  | Raise (HTTPException c d) => Raise (HTTPException c d)
  | Raise e => Raise (HTTPException 500 (prefix ++ str_exn e))
  end.

Definition best_info (bt : FrozenTrial) : BestInfo :=
  {| bi_trial_number := number bt;
     bi_parameters := params bt;
     bi_score := value bt;
     bi_timestamp := datetime_complete bt |}.

Definition summary (t : FrozenTrial) : TrialSummary :=
  {| ts_trial_number := number t;
     ts_parameters := params t;
     ts_score := value t |}.

Definition report_result_body (st : Storage) (data : ReportData)
    : result ReportResponse * Storage :=
  let study_name :=
    get_study_name (rd_bean_id data) (rd_user_id data) (rd_method data) in
  match load_study st study_name with
  | Raise e => (Raise e, st)
  | Ok study =>
    match find_trial (trials st study) (rd_trial_number data) with
    | None =>
        (Raise (HTTPException 404
           ("Trial " ++ str_int (rd_trial_number data)
            ++ " not found in study " ++ study_name)), st)
    | Some trial =>
        if is_complete (state trial)
        then (Ok (AlreadyCompleted (rd_trial_number data) (value trial)), st)
        else
          match study_tell st study trial (rd_taste_score data) with
          | (Raise e, st') => (Raise e, st')
          | (Ok _, st') =>
            match study_best_trial st' study with
            | Raise e => (Raise e, st')
            | Ok bt =>
                (Ok (ReportSuccess (rd_trial_number data) (rd_taste_score data)
                       (summary bt)
                       (length (trials st' study))), st')
            end
          end
    end
  end.

Definition report_result (db : Database) (data : ReportData)
    : result ReportResponse * Database :=
  match get_storage db with
  | Raise e => (reraise "Failed to report result: " (Raise e), db)
  | Ok st =>
      let '(r, st') := report_result_body st data in
      (reraise "Failed to report result: " r, Reachable st')
  end.

Definition get_optimization_status_body (st : Storage)
    (bean_id : string) (user_id : option string) (method : string)
    : result StatusResponse :=
  let study_name := get_study_name bean_id user_id method in
  match load_study st study_name with
  | Raise (KeyError _) => Ok (NotStarted study_name 0)
  | Raise e => Raise e
  | Ok study =>
      do best_trial <-
        (if (0 <? length (trials st study))%nat
         then do bt <- study_best_trial st study; Ok (Some (best_info bt))
         else Ok None);
      let recent_trials :=
        map summary
          (List.filter (fun t => is_complete (state t))
             (last5 (trials st study))) in
      Ok (Active study_name (length (trials st study))
            best_trial recent_trials)
  end.

Definition get_optimization_status (db : Database)
    (bean_id : string) (user_id : option string) (method : string)
    : result StatusResponse :=
  reraise "Failed to get status: "
    (do st <- get_storage db;
     get_optimization_status_body st bean_id user_id method).

Definition get_best_parameters_body (st : Storage)
    (bean_id : string) (user_id : option string) (method : string)
    : result BestResponse :=
  let study_name := get_study_name bean_id user_id method in
  match load_study st study_name with
  | Raise (KeyError _) =>
      Raise (HTTPException 404
               ("No optimization data found for " ++ study_name))
  | Raise e => Raise e
  | Ok study =>
      if (length (trials st study) =? 0)%nat
      then Raise (HTTPException 404 "No trials completed yet")
      else
        do bt <- study_best_trial st study;
        Ok {| br_study_name := study_name;
              br_best_trial :=
                {| bi_trial_number := number bt;
                   bi_parameters :=
                     [("grind", round1 (params_get (params bt) "grind" 0));
                      ("dose", round1 (params_get (params bt) "dose" 0));
                      ("time", round1 (params_get (params bt) "time" 0))];
                   bi_score := value bt;
                   bi_timestamp := datetime_complete bt |};
              br_total_trials := length (trials st study) |}
  end.

Definition get_best_parameters (db : Database)
    (bean_id : string) (user_id : option string) (method : string)
    : result BestResponse :=
  reraise "Failed to get best parameters: "
    (do st <- get_storage db;
     get_best_parameters_body st bean_id user_id method).

End Handlers.

End DialIn.

(** ** The clustering recommender,
    [src/ml_service/recommendations/parameter_optimizer.py] *)

Module Recommender.

Local Open Scope Q_scope.

(** A float that may be NaN ([None]). *)
Abbreviation fnum := (option Q).

Definition Qlt_b (x y : Q) : bool := negb (Qle_bool y x).

(** [a < b] on floats: false as soon as one side is NaN. *)
Definition f_lt (a b : fnum) : bool :=
  match a, b with
  | Some x, Some y => Qlt_b x y
  | _, _ => false
  end.

(** The builtins [max(a, b)] and [min(a, b)]: the first argument is kept
    unless the second compares strictly beyond it. *)
Definition py_max (a b : fnum) : fnum := if f_lt a b then b else a.
Definition py_min (a b : fnum) : fnum := if f_lt b a then b else a.

Definition f_lift2 (op : Q -> Q -> Q) (a b : fnum) : fnum :=
  match a, b with
  | Some x, Some y => Some (op x y)
  | _, _ => None
  end.

Definition q_of_nat (n : nat) : Q := inject_Z (Z.of_nat n).

Definition Qsum (l : list Q) : Q := fold_right Qplus 0 l.

(** [Series.mean()]: NaN on an empty series. *)
Definition mean (l : list Q) : fnum :=
  match l with
  | [] => None
  | _ => Some (Qsum l / q_of_nat (length l))
  end.

(** A pandas column with its dtype.  [ColObject] stands for every dtype
    other than float64, int64 and bool. *)
Inductive column :=
| ColFloat (l : list Q)
| ColInt (l : list Z)
| ColBool (l : list bool)
| ColObject (l : list string).

(** The frame of historical shots.  The taste and quality columns are the
    ones the code indexes without a test; the parameter columns are looked
    up by name; [cluster] exists once [fit] has added it. *)
Record DataFrame := {
  index : list nat;
  sweetness : list Q;
  acidity : list Q;
  bitterness : list Q;
  body : list Q;
  shotQuality : list Q;
  cluster : option (list nat);
  param_columns : list (string * column)
}.

(** [len(df)] *)
Definition len (df : DataFrame) : nat := length (index df).

(** Selection of the entries of [l] at which the boolean mask is true. *)
Fixpoint mask_select {A} (mask : list bool) (l : list A) : list A :=
  match mask, l with
  | b :: mask', x :: l' =>
      if b then x :: mask_select mask' l' else mask_select mask' l'
  | _, _ => []
  end.

Definition column_select (mask : list bool) (c : column) : column :=
  match c with
  | ColFloat l => ColFloat (mask_select mask l)
  | ColInt l => ColInt (mask_select mask l)
  | ColBool l => ColBool (mask_select mask l)
  | ColObject l => ColObject (mask_select mask l)
  end.

(** [df[mask]] *)
Definition df_select (mask : list bool) (df : DataFrame) : DataFrame :=
  {| index := mask_select mask (index df);
     sweetness := mask_select mask (sweetness df);
     acidity := mask_select mask (acidity df);
     bitterness := mask_select mask (bitterness df);
     body := mask_select mask (body df);
     shotQuality := mask_select mask (shotQuality df);
     cluster := option_map (mask_select mask) (cluster df);
     param_columns :=
       map (fun kc => (fst kc, column_select mask (snd kc))) (param_columns df) |}.

(** [dict.get(key, default)] and [key in dict] on insertion-ordered dicts *)
Fixpoint get {A} (d : list (string * A)) (key : string) (default : A) : A :=
  match d with
  | [] => default
  | (k, v) :: d' => if String.eqb k key then v else get d' key default
  end.

Fixpoint lookup_key {A} (d : list (string * A)) (key : string) : option A :=
  match d with
  | [] => None
  | (k, v) :: d' => if String.eqb k key then Some v else lookup_key d' key
  end.

Definition has_key {A} (d : list (string * A)) (key : string) : bool :=
  match lookup_key d key with Some _ => true | None => false end.

(** [d[key] = v] on a dict that holds [key] already: the position is kept. *)
Fixpoint set_key {A} (d : list (string * A)) (key : string) (v : A)
    : list (string * A) :=
  match d with
  | [] => []
  | (k, x) :: d' =>
      if String.eqb k key then (k, v) :: d' else (k, x) :: set_key d' key v
  end.

(** [shots_df[taste_features].values]: one row of four values per shot. *)
Fixpoint rows4 (a b c d : list Q) : list (list Q) :=
  match a, b, c, d with
  | x :: a', y :: b', z :: c', w :: d' => [x; y; z; w] :: rows4 a' b' c' d'
  | _, _, _, _ => []
  end.

Definition taste_rows (df : DataFrame) : list (list Q) :=
  rows4 (sweetness df) (acidity df) (bitterness df) (body df).

(** Element-wise difference of two vectors. *)
Definition vsub (a b : list Q) : list Q :=
  map (fun xy => fst xy - snd xy) (combine a b).

(** What the recommender uses of scikit-learn, pandas and numpy. *)
Class SciLib := {
  StandardScaler : Type;
  KMeans : Type;
  (** [StandardScaler()] and [KMeans(n_clusters=k, random_state=42)] *)
  new_scaler : StandardScaler;
  new_kmeans : nat -> KMeans;
  (** [scaler.fit_transform(X)], [scaler.transform(row)] *)
  fit_transform :
    StandardScaler -> list (list Q) -> result (StandardScaler * list (list Q));
  transform : StandardScaler -> list Q -> result (list Q);
  (** [clusterer.fit(X)], [.labels_], [.cluster_centers_], [.predict(row)[0]] *)
  kmeans_fit : KMeans -> list (list Q) -> result KMeans;
  labels_ : KMeans -> list nat;
  cluster_centers_ : KMeans -> list (list Q);
  predict : KMeans -> list Q -> result nat;
  (** [np.linalg.norm] of a finite vector *)
  linalg_norm : list Q -> Q;
  (** [Series.std()]; NaN is [None] *)
  std : list Q -> fnum;
  (** [Series.mode()]: the modal values, as pandas orders them *)
  mode : list string -> list string;
  (** [round(x, ndigits)] *)
  round : Q -> nat -> Q
}.

Inductive pvalue :=
| PFloat (x : fnum)
| PObject (s : string).

Record Constraints := {
  fixedParams : option (list string);
  paramRanges : option (list (string * (Q * Q)))
}.

Inductive Explanation :=
| FinerGrind (grind_change : Q)
| CoarserGrind (grind_change : Q)
| HigherTemperature (temp_change : Q)
| LowerTemperature (temp_change : Q).

Record Recommendation := {
  primary : list (string * pvalue);
  confidence : fnum;
  expectedOutcome : list (string * fnum);
  distanceFromTarget : fnum;
  clusterSize : nat;
  qualityShotsCount : nat;
  explanation : list (string * Explanation)
}.

Definition taste_features : list string :=
  ["sweetness"; "acidity"; "bitterness"; "body"].

Definition parameter_features : list string :=
  ["grindSize"; "extractionTime"; "temperature"; "inWeight";
   "pressure"; "preInfusionTime"; "usedWDT"; "usedPuckScreen"].

Definition bool_q (b : bool) : Q := if b then 1 else 0.

Section Core.
Context `{L : SciLib}.

Record ClusteringRecommender := {
  n_clusters : nat;
  clusterer : KMeans;
  scaler : StandardScaler;
  historical_shots : option DataFrame
}.

(** [ClusteringRecommender.__init__] *)
Definition init (n : nat) : ClusteringRecommender :=
  {| n_clusters := n;
     clusterer := new_kmeans n;
     scaler := new_scaler;
     historical_shots := None |}.

Definition set_cluster (df : DataFrame) (labels : list nat) : DataFrame :=
  {| index := index df;
     sweetness := sweetness df;
     acidity := acidity df;
     bitterness := bitterness df;
     body := body df;
     shotQuality := shotQuality df;
     cluster := Some labels;
     param_columns := param_columns df |}.

(** [ClusteringRecommender.fit]: the outcome and the object afterwards.  The
    attributes assigned before a library call raises stay assigned. *)
Definition fit (self : ClusteringRecommender) (shots_df : DataFrame)
    : result unit * ClusteringRecommender :=
  let self1 :=
    {| n_clusters := n_clusters self; clusterer := clusterer self;
       scaler := scaler self; historical_shots := Some shots_df |} in
  let taste_profiles := taste_rows shots_df in
  match fit_transform (scaler self1) taste_profiles with
  | Raise e => (Raise e, self1)
  | Ok (sc, taste_profiles_scaled) =>
      let self2 :=
        {| n_clusters := n_clusters self; clusterer := clusterer self;
           scaler := sc; historical_shots := Some shots_df |} in
      match kmeans_fit (clusterer self2) taste_profiles_scaled with
      | Raise e => (Raise e, self2)
      | Ok km =>
          (Ok tt,
           {| n_clusters := n_clusters self; clusterer := km; scaler := sc;
              historical_shots := Some (set_cluster shots_df (labels_ km)) |})
      end
  end.

(** [historical_shots[historical_shots['cluster'] == cluster_id]] *)
Definition cluster_select (hist : DataFrame) (cluster_id : nat)
    : result DataFrame :=
  match cluster hist with
  | None => Raise (KeyError "cluster")
  | Some labels => Ok (df_select (map (Nat.eqb cluster_id) labels) hist)
  end.

(** [df[df['shotQuality'] >= q]] *)
Definition quality_at_least (q : Q) (df : DataFrame) : DataFrame :=
  df_select (map (Qle_bool q) (shotQuality df)) df.

(** The quality filter of [recommend] with its two relaxations. *)
Definition quality_shots (cluster_shots : DataFrame) : DataFrame :=
  let best_shots := quality_at_least 7 cluster_shots in
  let best_shots :=
    if (len best_shots =? 0)%nat
    then quality_at_least 6 cluster_shots else best_shots in
  let best_shots :=
    if (len best_shots =? 0)%nat then cluster_shots else best_shots in
  best_shots.

(** The body of the loop over [parameter_features] for one column: the mean
    when the dtype is float64, int64 or bool, the first mode otherwise. *)
Definition aggregate (c : column) : result pvalue :=
  match c with
  | ColFloat l => Ok (PFloat (mean l))
  | ColInt l => Ok (PFloat (mean (map inject_Z l)))
  | ColBool l => Ok (PFloat (mean (map bool_q l)))
  | ColObject l =>
      match mode l with
      | m :: _ => Ok (PObject m)
      | [] => Raise (KeyError "0")
      end
  end.

Fixpoint aggregate_params (features : list string) (best_shots : DataFrame)
    : result (list (string * pvalue)) :=
  match features with
  | [] => Ok []
  | param :: rest =>
      match lookup_key (param_columns best_shots) param with
      | Some c =>
          do v <- aggregate c;
          do vs <- aggregate_params rest best_shots;
          Ok ((param, v) :: vs)
      | None => aggregate_params rest best_shots
      end
  end.

(** [np.clip(x, lo, hi)] *)
Definition np_clip (v : pvalue) (min_val max_val : Q) : result pvalue :=
  match v with
  | PFloat (Some x) => Ok (PFloat (Some (Qmin (Qmax x min_val) max_val)))
  | PFloat None => Ok (PFloat None)
  | PObject _ => Raise (TypeError "clip")
  end.

Fixpoint clip_ranges (ranges : list (string * (Q * Q)))
    (constrained_params : list (string * pvalue))
    : result (list (string * pvalue)) :=
  match ranges with
  | [] => Ok constrained_params
  | (param, (min_val, max_val)) :: rest =>
      match lookup_key constrained_params param with
      | Some v =>
          do v' <- np_clip v min_val max_val;
          clip_ranges rest (set_key constrained_params param v')
      | None => clip_ranges rest constrained_params
      end
  end.

Definition _apply_constraints (params : list (string * pvalue))
    (constraints : Constraints) : result (list (string * pvalue)) :=
  (* the loop over 'fixedParams' has an empty body *)
  match paramRanges constraints with
  | Some ranges => clip_ranges ranges params
  | None => Ok params
  end.

Definition _calculate_confidence (self : ClusteringRecommender)
    (best_shots all_cluster_shots : DataFrame) (target_scaled : list Q)
    : result fnum :=
  let quality_ratio :=
    q_of_nat (len best_shots) / q_of_nat (Nat.max (len all_cluster_shots) 1) in
  let cluster_consistency :=
    f_lift2 Qminus (Some 1)
      (f_lift2 Qdiv (std (shotQuality all_cluster_shots)) (Some 10)) in
  match cluster all_cluster_shots with
  | None => Raise (KeyError "cluster")
  | Some [] => Raise (IndexError "single positional indexer is out-of-bounds")
  | Some (label :: _) =>
      match nth_error (cluster_centers_ (clusterer self)) label with
      | None => Raise (IndexError "index out of bounds")
      | Some cluster_center =>
          let distance_from_center :=
            linalg_norm (vsub target_scaled cluster_center) in
          let distance_confidence :=
            py_max (Some 0) (Some (1 - distance_from_center / 2)) in
          let confidence :=
            f_lift2 Qplus
              (f_lift2 Qplus
                 (Some (0.4 * quality_ratio))
                 (f_lift2 Qmult (Some 0.3) cluster_consistency))
              (f_lift2 Qmult (Some 0.3) distance_confidence) in
          Ok (py_max (Some 0) (py_min (Some 1) confidence))
      end
  end.

Definition finite4 (a b c d : fnum) : option (list Q) :=
  match a, b, c, d with
  | Some x, Some y, Some z, Some w => Some [x; y; z; w]
  | _, _, _, _ => None
  end.

Definition _calculate_taste_distance (outcome : list (string * fnum))
    (target : list (string * Q)) : fnum :=
  let outcome_array :=
    finite4 (get outcome "sweetness" (Some 5)) (get outcome "acidity" (Some 5))
            (get outcome "bitterness" (Some 5)) (get outcome "body" (Some 5)) in
  let target_array :=
    [get target "sweetness" 5; get target "acidity" 5;
     get target "bitterness" 5; get target "body" 5] in
  option_map (fun o => linalg_norm (vsub o target_array)) outcome_array.

(** [recommended[name] - current[name]] *)
Definition change (v : pvalue) (cur : Q) : result fnum :=
  match v with
  | PFloat x => Ok (f_lift2 Qminus x (Some cur))
  | PObject _ => Raise (TypeError "unsupported operand type(s) for -")
  end.

Definition explain_one (name : string) (threshold : Q)
    (up down : Q -> Explanation)
    (recommended : list (string * pvalue)) (current : list (string * Q))
    : result (list (string * Explanation)) :=
  match lookup_key recommended name, lookup_key current name with
  | Some v, Some cur =>
      do c <- change v cur;
      match c with
      | Some c =>
          if Qlt_b threshold (Qabs c)
          then if Qlt_b 0 c then Ok [(name, up c)] else Ok [(name, down c)]
          else Ok []
      | None => Ok []
      end
  | _, _ => Ok []
  end.

Definition _generate_explanation (recommended : list (string * pvalue))
    (current : option (list (string * Q)))
    (expected : list (string * fnum)) (target : list (string * Q))
    : result (list (string * Explanation)) :=
  match current with
  | Some ((_ :: _) as current) =>
      do g <- explain_one "grindSize" 0.5 FinerGrind CoarserGrind
                recommended current;
      do t <- explain_one "temperature" 1 HigherTemperature LowerTemperature
                recommended current;
      Ok (g ++ t)%list
  | _ => Ok []   (* [if current:] is false for None and for an empty dict *)
  end.

Definition target_array (target_profile : list (string * Q)) : list Q :=
  [get target_profile "sweetness" 5; get target_profile "acidity" 5;
   get target_profile "bitterness" 5; get target_profile "body" 5].

Definition expected_outcome (best_shots : DataFrame) : list (string * fnum) :=
  [("sweetness", mean (sweetness best_shots));
   ("acidity", mean (acidity best_shots));
   ("bitterness", mean (bitterness best_shots));
   ("body", mean (body best_shots));
   ("shotQuality", mean (shotQuality best_shots))].

(** [ClusteringRecommender.recommend] *)
Definition recommend (self : ClusteringRecommender)
    (target_profile : list (string * Q))
    (constraints : option Constraints)
    (current_params : option (list (string * Q)))
    : result Recommendation :=
  match historical_shots self with
  | None => Raise (ValueError "Model not fitted. Call fit() first.")
  | Some hist =>
      do target_scaled <- transform (scaler self) (target_array target_profile);
      do cluster_id <- predict (clusterer self) target_scaled;
      do cluster_shots <- cluster_select hist cluster_id;
      let best_shots := quality_shots cluster_shots in
      do recommended_params <- aggregate_params parameter_features best_shots;
      do recommended_params <-
        match constraints with
        | Some c => _apply_constraints recommended_params c
        | None => Ok recommended_params
        end;
      do confidence <-
        _calculate_confidence self best_shots cluster_shots target_scaled;
      let expected := expected_outcome best_shots in
      let distance := _calculate_taste_distance expected target_profile in
      do explanation <-
        _generate_explanation recommended_params current_params
          expected target_profile;
      Ok {| primary := recommended_params;
            confidence := confidence;
            expectedOutcome := expected;
            distanceFromTarget := distance;
            clusterSize := len cluster_shots;
            qualityShotsCount := len best_shots;
            explanation := explanation |}
  end.

End Core.

End Recommender.

(** ** The recommendation endpoint and start-up of [src/ml_service/app.py] *)

Module MlService.

Import Recommender.
Local Open Scope Q_scope.

(** A JSON value found under a key of [targetProfile].  A number is a
    rational: the values NaN and Infinity, which Python's parser also
    accepts, are not represented. *)
Inductive json :=
| JNull
| JBool (b : bool)
| JNum (q : Q)
| JStr (s : string)
| JOther.   (* arrays and objects *)

(** [isinstance(value, (int, float))] with the number it denotes: Python's
    [bool] is a subclass of [int]. *)
Definition number_of (v : json) : option Q :=
  match v with
  | JNum q => Some q
  | JBool b => Some (bool_q b)
  | _ => None
  end.

(** The negation of
    [not isinstance(value, (int, float)) or value < 1 or value > 10]. *)
Definition valid_taste_value (v : json) : bool :=
  match number_of v with
  | Some q => negb (Qlt_b q 1 || Qlt_b 10 q)
  | None => false
  end.

(** The JSON body of [POST /recommend], for a body that is an object whose
    fields have the documented types.  [None] in a field: the key is absent
    (or null). *)
Record RecommendData := {
  currentParams : option (list (string * Q));
  targetProfile : option (list (string * json));
  constraints : option Constraints;
  other_keys : list string
}.

(** [not data] for a parsed body: an empty object is false. *)
Definition empty_body (d : RecommendData) : bool :=
  match currentParams d, targetProfile d, constraints d, other_keys d with
  | None, None, None, [] => true
  | _, _, _, _ => false
  end.

Inductive Response :=
| ErrorResponse (error : string) (status_code : nat)
| RecommendationResponse (recommendations : Recommendation).

(** One call of [recommender.recommend] made by the handler. *)
Record RecommendCall := {
  call_target_profile : list (string * Q);
  call_constraints : option Constraints;
  call_current_params : option (list (string * Q))
}.

Definition required_taste_dims : list string :=
  ["sweetness"; "acidity"; "bitterness"; "body"].

(** [[dim for dim in required_taste_dims if dim not in target_profile]] *)
Definition missing_dims (target_profile : list (string * json)) : list string :=
  List.filter (fun dim => negb (has_key target_profile dim)) required_taste_dims.

(** The loop over [target_profile.items()]: the first offending key, or the
    profile with its values read as numbers. *)
Fixpoint check_values (target_profile : list (string * json))
    : string + list (string * Q) :=
  match target_profile with
  | [] => inr []
  | (dim, value) :: rest =>
      match number_of value with
      | Some q =>
          if valid_taste_value value
          then match check_values rest with
               | inl d => inl d
               | inr l => inr ((dim, q) :: l)
               end
          else inl dim
      | None => inl dim
      end
  end.

Section Service.
Context `{L : SciLib}.

Definition round_pvalue (v : pvalue) : pvalue :=
  match v with
  | PFloat x => PFloat (option_map (fun q => round q 1) x)
  | PObject s => PObject s
  end.

(** The rounding of the successful response. *)
Definition format_recommendations (r : Recommendation) : Recommendation :=
  {| primary := map (fun kv => (fst kv, round_pvalue (snd kv))) (primary r);
     confidence := option_map (fun q => round q 2) (confidence r);
     expectedOutcome :=
       map (fun kv => (fst kv, option_map (fun q => round q 1) (snd kv)))
           (expectedOutcome r);
     distanceFromTarget :=
       option_map (fun q => round q 2) (distanceFromTarget r);
     clusterSize := clusterSize r;
     qualityShotsCount := qualityShotsCount r;
     explanation := explanation r |}.

(** [recommend()] of app.py: the response, and the calls made to the
    recommender while producing it. *)
Definition recommend (recommender : option ClusteringRecommender)
    (data : option RecommendData) : Response * list RecommendCall :=
  match recommender with
  | None =>
      (ErrorResponse
         "Recommendation engine not available. Need more historical data (10+ shots)."
         503, [])
  | Some rec =>
    match data with
    | None => (ErrorResponse "Request body is required" 400, [])
    | Some d =>
      if empty_body d
      then (ErrorResponse "Request body is required" 400, [])
      else
        match targetProfile d with
        | None | Some [] => (ErrorResponse "targetProfile is required" 400, [])
        | Some target_profile =>
          match missing_dims target_profile with
          | (_ :: _) as missing =>
              (ErrorResponse
                 ("Missing taste dimensions: " ++ String.concat ", " missing)
                 400, [])
          | [] =>
            match check_values target_profile with
            | inl dim =>
                (ErrorResponse
                   ("Invalid value for " ++ dim ++ ": must be between 1 and 10")
                   400, [])
            | inr profile =>
                let current_params :=
                  match currentParams d with
                  | Some ((_ :: _) as c) => Some c
                  | _ => None
                  end in
                let call :=
                  {| call_target_profile := profile;
                     call_constraints := constraints d;
                     call_current_params := current_params |} in
                match Recommender.recommend rec profile (constraints d)
                        current_params with
                | Ok r => (RecommendationResponse (format_recommendations r),
                           [call])
                | Raise e =>
                    (ErrorResponse ("Recommendation failed: " ++ str_exn e) 500,
                     [call])
                end
            end
          end
        end
    end
  end.

(** The part of [load_models] that sets the global [recommender].
    [model_ok]: the model file exists and the predictor and explainer load
    without an exception; [historical_df]: the frame read from the first
    data file found, if any.  The result is the new value of the global. *)
Definition load_models (model_ok : bool) (historical_df : option DataFrame)
    : option ClusteringRecommender :=
  if model_ok
  then
    match historical_df with
    | Some df =>
        if (10 <? len df)%nat
        then
          let recommender := init (Nat.min 5 (len df / 10)) in
          match fit recommender df with
          | (Ok _, recommender') => Some recommender'
          | (Raise _, _) => None
          end
        else None
    | None => None
    end
  else None.

End Service.

End MlService.

(** ** Executable instances of the library interfaces

    Small rational-arithmetic implementations of [Optuna] and [SciLib], used
    to run the handlers on concrete inputs.  No statement about the handlers
    depends on them. *)

Module Reference.

Import DialIn Recommender MlService.
Local Open Scope Q_scope.

(** *** Optuna: an in-memory storage *)

Definition complete_trial (n : Z) (v : Q) (t : FrozenTrial) : FrozenTrial :=
  if (number t =? n)%Z
  then {| number := number t; state := COMPLETE; value := Some v;
          params := params t; datetime_complete := Some "now" |}
  else t.

Definition tell_in_memory (st : Storage) (study_name : string)
    (trial : FrozenTrial) (v : Q) : result unit * Storage :=
  match st !! study_name with
  | Some ts =>
      (Ok tt, <[study_name := map (complete_trial (number trial) v) ts]> st)
  | None => (Raise (KeyError study_name), st)
  end.

(** The first COMPLETE trial of maximal value. *)
Fixpoint first_best (ts : list FrozenTrial) (best : option FrozenTrial)
    : option FrozenTrial :=
  match ts with
  | [] => best
  | t :: ts' =>
      match state t, value t, best with
      | COMPLETE, Some v, None => first_best ts' (Some t)
      | COMPLETE, Some v, Some b =>
          if f_lt (value b) (Some v) then first_best ts' (Some t)
          else first_best ts' best
      | _, _, _ => first_best ts' best
      end
  end.

Definition best_in_memory (st : Storage) (study_name : string)
    : result FrozenTrial :=
  match first_best (DialIn.trials st study_name) None with
  | Some t => Ok t
  | None => Raise (ValueError "No trials are completed yet.")
  end.

(** Rounding to [n] decimals, halves upwards. *)
Definition round_half_up (q : Q) (n : nat) : Q :=
  let scale := (10 ^ Z.of_nat n)%Z in
  Qred (inject_Z (Qfloor (q * inject_Z scale + (1 # 2))) / inject_Z scale).

#[export] Instance InMemoryOptuna : Optuna := {|
  unknown_study_msg := fun name => name;
  study_tell := tell_in_memory;
  study_best_trial := best_in_memory;
  round1 := fun q => round_half_up q 1
|}.

(** *** scikit-learn, pandas, numpy: one cluster, truncated square roots *)

(** The square root, truncated to six decimals. *)
Definition qsqrt (q : Q) : Q :=
  Qred (inject_Z (Z.sqrt (Qfloor (q * 1000000000000))) / 1000000).

Definition qsquare (x : Q) : Q := x * x.

Definition mean0 (l : list Q) : Q :=
  match mean l with Some m => Qred m | None => 0 end.

(** Mean and scale of the [i]-th feature; a zero deviation scales by 1. *)
Definition feature (i : nat) (X : list (list Q)) : list Q :=
  map (fun row => nth i row 0) X.

Definition feature_scale (l : list Q) : Q :=
  let m := mean0 l in
  let s := qsqrt (mean0 (map (fun x => qsquare (x - m)) l)) in
  if Qeq_bool s 0 then 1 else s.

Definition scale_row (means scales row : list Q) : list Q :=
  map (fun xms => Qred ((fst (fst xms) - snd (fst xms)) / snd xms))
      (combine (combine row means) scales).

Definition width (X : list (list Q)) : nat :=
  match X with [] => 0 | row :: _ => length row end.

Definition scaler_fit_transform (_ : option (list Q * list Q))
    (X : list (list Q)) : result (option (list Q * list Q) * list (list Q)) :=
  match X with
  | [] => Raise (ValueError "Found array with 0 sample(s)")
  | _ =>
      let means := map (fun i => mean0 (feature i X)) (seq 0 (width X)) in
      let scales :=
        map (fun i => feature_scale (feature i X)) (seq 0 (width X)) in
      Ok (Some (means, scales), map (scale_row means scales) X)
  end.

Definition scaler_transform (sc : option (list Q * list Q)) (row : list Q)
    : result (list Q) :=
  match sc with
  | Some (means, scales) => Ok (scale_row means scales row)
  | None => Raise (Exception "This StandardScaler instance is not fitted yet.")
  end.

Record OneCluster := {
  oc_n_clusters : nat;
  oc_fitted : option (list Q * nat)   (* the centroid, the number of samples *)
}.

Definition one_cluster_fit (km : OneCluster) (X : list (list Q))
    : result OneCluster :=
  if (length X <? oc_n_clusters km)%nat
  then Raise (ValueError "n_samples should be >= n_clusters")
  else if (oc_n_clusters km =? 1)%nat
  then Ok {| oc_n_clusters := 1;
             oc_fitted :=
               Some (map (fun i => mean0 (feature i X)) (seq 0 (width X)),
                     length X) |}
  else Raise (Exception "only one cluster is implemented").

Definition one_cluster_labels (km : OneCluster) : list nat :=
  match oc_fitted km with
  | Some (_, n) => repeat 0%nat n
  | None => []
  end.

Definition one_cluster_centers (km : OneCluster) : list (list Q) :=
  match oc_fitted km with
  | Some (c, _) => [c]
  | None => []
  end.

Definition one_cluster_predict (km : OneCluster) (row : list Q) : result nat :=
  match oc_fitted km with
  | Some _ => Ok 0%nat
  | None => Raise (Exception "This KMeans instance is not fitted yet.")
  end.

Definition norm2 (v : list Q) : Q := qsqrt (Qsum (map qsquare v)).

(** The sample standard deviation; NaN below two values. *)
Definition sample_std (l : list Q) : fnum :=
  match l with
  | [] | [_] => None
  | _ =>
      let m := mean0 l in
      Some (qsqrt (Qsum (map (fun x => qsquare (x - m)) l)
                   / q_of_nat (length l - 1)))
  end.

Definition count_occ_str (l : list string) (s : string) : nat :=
  length (List.filter (String.eqb s) l).

Fixpoint insert_sorted (s : string) (l : list string) : list string :=
  match l with
  | [] => [s]
  | x :: l' =>
      if String.eqb s x then l
      else if String.leb s x then s :: l else x :: insert_sorted s l'
  end.

(** The most frequent values, in increasing order. *)
Definition sorted_modes (l : list string) : list string :=
  let top := fold_right Nat.max 0%nat (map (count_occ_str l) l) in
  fold_right insert_sorted []
    (List.filter (fun s => (count_occ_str l s =? top)%nat) l).

#[export] Instance OneClusterLib : SciLib := {|
  StandardScaler := option (list Q * list Q);
  KMeans := OneCluster;
  new_scaler := None;
  new_kmeans := fun k => {| oc_n_clusters := k; oc_fitted := None |};
  fit_transform := scaler_fit_transform;
  transform := scaler_transform;
  kmeans_fit := one_cluster_fit;
  labels_ := one_cluster_labels;
  cluster_centers_ := one_cluster_centers;
  predict := one_cluster_predict;
  linalg_norm := norm2;
  std := sample_std;
  mode := sorted_modes;
  round := round_half_up
|}.

(** *** Sample data *)

Definition trial0 : FrozenTrial :=
  {| number := 0; state := COMPLETE; value := Some 7.5;
     params := []; datetime_complete := Some "2025-01-01T10:00:00" |}.

Definition trial1 : FrozenTrial :=
  {| number := 1; state := RUNNING; value := None;
     params := [("grind", 12.5); ("dose", 18); ("time", 28)];
     datetime_complete := None |}.

Definition sample_storage : Storage :=
  {[ "bean_b1_espresso" := [trial0; trial1] ]}.

(** A study that exists and holds no trial. *)
Definition empty_study_storage : Storage := {[ "bean_b1_espresso" := [] ]}.


(** Three shots with the same taste. *)
Definition shots3 : DataFrame :=
  {| index := [0; 1; 2]%nat;
     sweetness := [7; 7; 7]; acidity := [5; 5; 5];
     bitterness := [4; 4; 4]; body := [6; 6; 6];
     shotQuality := [8; 6; 5];
     cluster := None;
     param_columns :=
       [("grindSize", ColFloat [12; 13; 14]);
        ("usedWDT", ColBool [true; false; true])] |}.

(** Twelve shots. *)
Definition shots12 : DataFrame :=
  {| index := seq 0 12;
     sweetness := [8; 7; 6; 8; 7; 5; 6; 7; 8; 6; 7; 5];
     acidity := [5; 6; 4; 5; 6; 7; 5; 4; 5; 6; 5; 6];
     bitterness := [3; 4; 5; 3; 4; 6; 5; 4; 3; 4; 4; 5];
     body := [7; 6; 6; 7; 5; 5; 6; 7; 7; 6; 6; 5];
     shotQuality := [9; 7; 6; 8; 7; 4; 6; 7; 9; 6; 7; 5];
     cluster := None;
     param_columns :=
       [("grindSize", ColFloat [12; 13; 14; 12; 13; 16; 14; 13; 12; 14; 13; 15]);
        ("temperature", ColInt [93; 93; 92; 94; 93; 90; 92; 93; 94; 92; 93; 91]%Z);
        ("usedWDT",
         ColBool [true; true; false; true; false; false;
                  false; true; true; false; true; false]);
        ("usedPuckScreen",
         ColObject ["yes"; "no"; "no"; "yes"; "yes"; "no";
                    "no"; "no"; "unknown"; "no"; "yes"; "no"])] |}.

(** The recommender that [load_models] fits on [shots12]. *)
Definition recommender12 : ClusteringRecommender :=
  snd (fit (init 1) shots12).

Definition profile_8537 : list (string * Q) :=
  [("sweetness", 8); ("acidity", 5); ("bitterness", 3); ("body", 7)].

Definition recommendation_8537 : Recommendation :=
  Eval vm_compute in
    match Recommender.recommend recommender12 profile_8537 None None with
    | Ok r => r
    | Raise _ =>
        {| primary := []; confidence := None; expectedOutcome := [];
           distanceFromTarget := None; clusterSize := 0;
           qualityShotsCount := 0; explanation := [] |}
    end.




(** A one-cluster frame with the given qualities. *)
Definition cluster_of_qualities (qs : list Q) : DataFrame :=
  {| index := seq 0 (length qs);
     sweetness := qs; acidity := qs; bitterness := qs; body := qs;
     shotQuality := qs; cluster := Some (repeat 0%nat (length qs));
     param_columns := [] |}.

End Reference.

(** ** Notions of the specification

    Definitions that follow the wording of the specification, to be compared
    with the code above. *)

Module Spec.

Import Recommender.
Local Open Scope Q_scope.



(** The most frequent value, the first encountered winning a tie. *)
Definition occurrences {A} (eqb : A -> A -> bool) (x : A) (l : list A) : nat :=
  length (List.filter (eqb x) l).

Fixpoint first_most_frequent {A} (eqb : A -> A -> bool) (all rest : list A)
    (best : A) : A :=
  match rest with
  | [] => best
  | x :: rest' =>
      if (occurrences eqb best all <? occurrences eqb x all)%nat
      then first_most_frequent eqb all rest' x
      else first_most_frequent eqb all rest' best
  end.

Definition spec_mode {A} (eqb : A -> A -> bool) (l : list A) : option A :=
  match l with
  | [] => None
  | x :: rest => Some (first_most_frequent eqb l rest x)
  end.


(** The value of a taste dimension in a target profile, 5 when the
    dimension is absent, and the vector of the four values. *)
Definition value_or_5 (target_profile : list (string * Q)) (dim : string) : Q :=
  match lookup_key target_profile dim with
  | Some v => v
  | None => 5
  end.

Definition target_or_5 (target_profile : list (string * Q)) : list Q :=
  [value_or_5 target_profile "sweetness"; value_or_5 target_profile "acidity";
   value_or_5 target_profile "bitterness"; value_or_5 target_profile "body"].

(** A target profile with the value 5 written in for every absent taste
    dimension. *)
Definition with_default (dim : string) (target_profile : list (string * Q))
    : list (string * Q) :=
  if has_key target_profile dim then target_profile
  else (target_profile ++ [(dim, 5)])%list.

Definition with_defaults (target_profile : list (string * Q))
    : list (string * Q) :=
  fold_right with_default target_profile taste_features.

End Spec.

(** ** The next-shot endpoint of [src/ai-engine/main.py] *)

Module DialInAsk.

Import DialIn.

(** [ShotData], after pydantic has validated it. *)
Record ShotData := {
  bean_id : string;
  user_id : option string;
  method : string;
  grind : option Q;
  dose : option Q;
  time : option Q;
  taste_score : option Q
}.

Record RecommendationResponse := {
  study_name : string;
  trial_number : Z;
  recommendation : list (string * Q);
  best_so_far : option BestInfo;
  total_trials : nat;
  message : string
}.

(** The methods that the validator of [ShotData] lets through. *)
Definition allowed_methods : list string :=
  ["espresso"; "ristretto"; "lungo"].

(** [ShotData.validate_method] *)
Definition validate_method (v : string) : result string :=
  if existsb (String.eqb v) allowed_methods
  then Ok v
  else Raise (ValueError
                ("Method must be one of: " ++ String.concat ", " allowed_methods)).

(** Whether a string holds an underscore. *)
Fixpoint has_underscore (s : string) : bool :=
  match s with
  | EmptyString => false
  | String c s' => String.eqb (String c "") "_" || has_underscore s'
  end.

(** What [recommend_next_shot] uses of Optuna.  [session] is everything the
    RDB storage holds; [Trial] is the handle that [study.ask()] returns. *)
Class OptunaSession := {
  session : Type;
  Trial : Type;
  (** [trial.number] *)
  number_of_trial : Trial -> Z;
  (** [optuna.create_study(..., load_if_exists=True, direction="maximize")] *)
  create_study : session -> string -> result unit * session;
  (** [study.ask()] *)
  ask : session -> string -> result Trial * session;
  (** [trial.set_user_attr(key, value)] *)
  set_user_attr : session -> Trial -> string -> option Q -> result unit * session;
  (** [study.tell(trial, value)] *)
  tell : session -> string -> Trial -> Q -> result unit * session;
  (** [trial.suggest_float(name, low, high, step=step)] *)
  suggest_float :
    session -> Trial -> string -> Q -> Q -> Q -> result Q * session;
  (** [study.trials] and [study.best_trial] *)
  session_trials : session -> string -> list FrozenTrial;
  session_best_trial : session -> string -> result FrozenTrial;
  (** [round(x, 1)] *)
  round_1 : Q -> Q
}.

Section NextShot.
Context `{S : OptunaSession}.

(** The database behind [get_storage()]. *)
Inductive SessionDb :=
| Down (err : string)
| Up (s : session).

(** Library calls thread the session and may raise. *)
Definition M (A : Type) : Type := session -> result A * session.

Definition ret {A} (a : A) : M A := fun s => (Ok a, s).

Definition raise {A} (e : exn) : M A := fun s => (Raise e, s).

Definition bindM {A B} (m : M A) (k : A -> M B) : M B :=
  fun s =>
    match m s with
    | (Ok a, s') => k a s'
    | (Raise e, s') => (Raise e, s')
    end.

Notation "'run' x <- m ; k" := (bindM m (fun x => k))
  (at level 10, x name, m at level 100, k at level 200).
Notation "'step' m ; k" := (bindM m (fun _ => k))
  (at level 10, m at level 100, k at level 200).

(** [get_or_create_study]: any exception becomes a 500 of its own. *)
Definition get_or_create_study (study_name : string) : M unit :=
  fun s =>
    match create_study s study_name with
    | (Ok u, s') => (Ok u, s')
    | (Raise e, s') =>
        (Raise (HTTPException 500 ("Failed to create study: " ++ str_exn e)),
         s')
    end.

(** The [if data.taste_score is not None and data.grind is not None] block:
    a fresh trial receives the values as user attributes and is told the
    score. *)
Definition record_feedback (study_name : string) (data : ShotData) : M unit :=
  match taste_score data, grind data with
  | Some score, Some g =>
      run trial <- (fun s => ask s study_name);
      step (fun s => set_user_attr s trial "grind" (Some g));
      step (fun s => set_user_attr s trial "dose" (dose data));
      step (fun s => set_user_attr s trial "time" (time data));
      (fun s => tell s study_name trial score)
  | _, _ => ret tt
  end.

Definition current_best (study_name : string) : M (option BestInfo) :=
  fun s =>
    if (0 <? length (session_trials s study_name))%nat
    then match session_best_trial s study_name with
         | Ok bt => (Ok (Some (best_info bt)), s)
         | Raise e => (Raise e, s)
         end
    else (Ok None, s).

Definition recommend_next_shot_body (data : ShotData)
    : M RecommendationResponse :=
  let study_name :=
    get_study_name (bean_id data) (user_id data) (method data) in
  step get_or_create_study study_name;
  step record_feedback study_name data;
  run trial <- (fun s => ask s study_name);
  run rec_grind <- (fun s => suggest_float s trial "grind" 1 25 0.5);
  run rec_dose <- (fun s => suggest_float s trial "dose" 14 22 0.1);
  run rec_time <- (fun s => suggest_float s trial "time" 20 40 1);
  run best <- current_best study_name;
  fun s =>
    (Ok {| study_name := study_name;
           trial_number := number_of_trial trial;
           recommendation :=
             [("grind", round_1 rec_grind);
              ("dose", round_1 rec_dose);
              ("target_time", round_1 rec_time)];
           best_so_far := best;
           total_trials := length (session_trials s study_name);
           message :=
             "Trial #" ++ str_int (number_of_trial trial)
             ++ ": Adjust your machine to these settings and report back!" |},
     s).

Definition recommend_next_shot (db : SessionDb) (data : ShotData)
    : result RecommendationResponse * SessionDb :=
  match db with
  | Down err =>
      (Raise (HTTPException 503 ("Database connection failed: " ++ err)), db)
  | Up s =>
      let '(r, s') := recommend_next_shot_body data s in
      (reraise "Optimization failed: " r, Up s')
  end.

(** The request without the fields that carry feedback. *)
Definition without_feedback (data : ShotData) : ShotData :=
  {| bean_id := bean_id data; user_id := user_id data; method := method data;
     grind := None; dose := None; time := None; taste_score := None |}.

End NextShot.

End DialInAsk.

(** ** The Bayesian recommender,
    [src/ml_service/recommendations/parameter_optimizer.py] *)

Module Bayesian.

Import Recommender.
Local Open Scope Q_scope.

(** What [BayesianRecommender] uses and does not define: the trained
    predictor, and [bayes_opt]'s optimizer run on an objective within
    bounds, read through [optimizer.max] as the target and the params. *)
Class BayesOpt := {
  predictor_predict : list (string * Q) -> result (list (string * Q));
  optimizer_max :
    (list (string * Q) -> result Q) -> list (string * (Q * Q)) ->
    result (Q * list (string * Q))
}.

Record BayesRecommendation := {
  b_primary : list (string * Q);
  b_confidence : Q;
  b_expectedOutcome : list (string * Q);
  b_distanceFromTarget : Q
}.

(** [del d[key]] *)
Fixpoint del_key {A} (d : list (string * A)) (key : string)
    : list (string * A) :=
  match d with
  | [] => []
  | (k, v) :: d' =>
      if String.eqb k key then d' else (k, v) :: del_key d' key
  end.

(** The loop [for param in fixedParams: if param in best_params: del ...] *)
Definition del_fixed (best_params : list (string * Q)) (fixed : list string)
    : list (string * Q) :=
  fold_left
    (fun bp param => if has_key bp param then del_key bp param else bp)
    fixed best_params.

Section Bayes.
Context `{L : SciLib} `{B : BayesOpt}.

Definition _calculate_distance (prediction target : list (string * Q)) : Q :=
  let pred_array :=
    [get prediction "sweetness" 5; get prediction "acidity" 5;
     get prediction "bitterness" 5; get prediction "body" 5] in
  let target_array :=
    [get target "sweetness" 5; get target "acidity" 5;
     get target "bitterness" 5; get target "body" 5] in
  linalg_norm (vsub pred_array target_array).

(** The nested [objective]: the negated distance of the prediction. *)
Definition objective (target_profile : list (string * Q))
    (params : list (string * Q)) : result Q :=
  do prediction <- predictor_predict params;
  Ok (- _calculate_distance prediction target_profile).

(** [BayesianRecommender.recommend] *)
Definition recommend (target_profile : list (string * Q))
    (param_bounds : list (string * (Q * Q)))
    (constraints : option Constraints) : result BayesRecommendation :=
  do best <- optimizer_max (objective target_profile) param_bounds;
  let target := fst best in
  let best_params := snd best in
  let best_params :=
    match constraints with
    | Some c =>
        match fixedParams c with
        | Some fixed => del_fixed best_params fixed
        | None => best_params
        end
    | None => best_params
    end in
  do expected_outcome <- predictor_predict best_params;
  Ok {| b_primary := best_params;
        b_confidence := Qabs target / 10;
        b_expectedOutcome := expected_outcome;
        b_distanceFromTarget := - target |}.

End Bayes.

End Bayesian.

(** ** Validation and confidence of [/predict], [src/ml_service/app.py] *)

Module Prediction.

Import Recommender MlService.
Local Open Scope Q_scope.

Definition required_fields : list string :=
  ["grindSize"; "extractionTime"; "inWeight"; "outWeight"].

(** The [validations] table: field, bounds, message. *)
Definition validations : list (string * (Q * Q * string)) :=
  [("grindSize", (1, 50, "Grind size must be between 1-50"));
   ("extractionTime", (10, 60, "Extraction time must be between 10-60 seconds"));
   ("inWeight", (10, 30, "Input weight must be between 10-30 grams"));
   ("outWeight", (15, 80, "Output weight must be between 15-80 grams"))]%string.

(** The negation of [not isinstance(value, (int, float)) or value < min_val
    or value > max_val]. *)
Definition within (value : json) (min_val max_val : Q) : bool :=
  match number_of value with
  | Some q => negb (Qlt_b q min_val || Qlt_b max_val q)
  | None => false
  end.

(** The loop over [validations.items()]: the message of the first field
    that is present and fails. *)
Fixpoint first_violation (table : list (string * (Q * Q * string)))
    (params : list (string * json)) : option string :=
  match table with
  | [] => None
  | (field, (min_val, max_val, message)) :: rest =>
      match lookup_key params field with
      | Some value =>
          if within value min_val max_val
          then first_violation rest params
          else Some message
      | None => first_violation rest params
      end
  end.

Definition validate_prediction_params (params : list (string * json))
    : bool * option string :=
  let missing :=
    List.filter (fun field => negb (has_key params field)) required_fields in
  match missing with
  | _ :: _ =>
      (false,
       Some ("Missing required fields: " ++ String.concat ", " missing)%string)
  | [] =>
      match first_violation validations params with
      | Some message => (false, Some message)
      | None => (true, None)
      end
  end.

(** [value < bound] and [value > bound] against a number: a string, null,
    list or dict on the left raises. *)
Definition py_lt (value : json) (bound : Q) : result bool :=
  match number_of value with
  | Some q => Ok (Qlt_b q bound)
  | None => Raise (TypeError "'<' not supported")
  end.

Definition py_gt (value : json) (bound : Q) : result bool :=
  match number_of value with
  | Some q => Ok (Qlt_b bound q)
  | None => Raise (TypeError "'>' not supported")
  end.

(** [params.get(key, default) < low or params.get(key, default) > high] *)
Definition extreme (params : list (string * json)) (key : string)
    (default low high : Q) : result bool :=
  do below <- py_lt (get params key (JNum default)) low;
  if below then Ok true else py_gt (get params key (JNum default)) high.

(** The local [base_confidence] of [calculate_confidence] after its three
    tests. *)
Definition base_confidence (params : list (string * json)) : result Q :=
  let base := 0.75 in
  do g <- extreme params "grindSize" 12 5 20;
  let base := if g then base * 0.9 else base in
  do t <- extreme params "temperature" 93 88 96;
  let base := if t then base * 0.9 else base in
  do e <- extreme params "extractionTime" 28 20 40;
  let base := if e then base * 0.9 else base in
  Ok base.

(** For the statements about [calculate_confidence]: a parameter is out of
    range when it is present with a number below [low] or above [high], and
    then lowers the confidence by the factor 0.9. *)
Definition out_of_range (params : list (string * json)) (key : string)
    (low high : Q) : bool :=
  match lookup_key params key with
  | Some v =>
      match number_of v with
      | Some q => Qlt_b q low || Qlt_b high q
      | None => false
      end
  | None => false
  end.

Definition lowering (params : list (string * json)) (key : string)
    (low high : Q) : Q :=
  if out_of_range params key low high then 0.9 else 1.

Section Confidence.
Context `{L : SciLib}.

(** [calculate_confidence]: the confidence per target, without the note. *)
Definition calculate_confidence (params : list (string * json))
    : result (list (string * Q)) :=
  do base <- base_confidence params;
  Ok [("overall", round base 2);
      ("shotQuality", round base 2);
      ("sweetness", round (base * 0.8) 2);
      ("acidity", round (base * 0.8) 2);
      ("bitterness", round (base * 0.8) 2);
      ("body", round (base * 0.8) 2)]%string.

End Confidence.

End Prediction.

(** ** More executable instances and sample data *)

Module Reference2.

Import DialIn DialInAsk Recommender MlService Bayesian Prediction Reference.
Local Open Scope Q_scope.

(** *** An in-memory Optuna session: the studies and the user attributes *)

Record MemSession := {
  ms_studies : Storage;
  ms_attrs : list (string * Z * string * option Q)
}.

Definition mem_create (s : MemSession) (name : string)
    : result unit * MemSession :=
  match ms_studies s !! name with
  | Some _ => (Ok tt, s)
  | None =>
      (Ok tt, {| ms_studies := <[name := []]> (ms_studies s);
                 ms_attrs := ms_attrs s |})
  end.

Definition mem_ask (s : MemSession) (name : string)
    : result (string * Z) * MemSession :=
  match ms_studies s !! name with
  | Some ts =>
      let n := Z.of_nat (length ts) in
      (Ok (name, n),
       {| ms_studies :=
            <[name := (ts ++ [{| number := n; state := RUNNING; value := None;
                                 params := []; datetime_complete := None |}])%list]>
              (ms_studies s);
          ms_attrs := ms_attrs s |})
  | None => (Raise (KeyError name), s)
  end.

Definition mem_set_attr (s : MemSession) (t : string * Z) (key : string)
    (v : option Q) : result unit * MemSession :=
  (Ok tt, {| ms_studies := ms_studies s;
             ms_attrs := (fst t, snd t, key, v) :: ms_attrs s |}).

Definition mem_tell (s : MemSession) (name : string) (t : string * Z) (v : Q)
    : result unit * MemSession :=
  match ms_studies s !! name with
  | Some ts =>
      (Ok tt, {| ms_studies :=
                   <[name := map (complete_trial (snd t) v) ts]> (ms_studies s);
                 ms_attrs := ms_attrs s |})
  | None => (Raise (KeyError name), s)
  end.

Definition add_param (n : Z) (key : string) (v : Q) (t : FrozenTrial)
    : FrozenTrial :=
  if (number t =? n)%Z
  then {| number := number t; state := state t; value := value t;
          params := (params t ++ [(key, v)])%list;
          datetime_complete := datetime_complete t |}
  else t.

(** The lower bound stands for the sampled value. *)
Definition mem_suggest (s : MemSession) (t : string * Z) (key : string)
    (low high step : Q) : result Q * MemSession :=
  match ms_studies s !! fst t with
  | Some ts =>
      (Ok low, {| ms_studies :=
                    <[fst t := map (add_param (snd t) key low) ts]>
                      (ms_studies s);
                  ms_attrs := ms_attrs s |})
  | None => (Raise (KeyError (fst t)), s)
  end.

#[export] Instance InMemorySession : OptunaSession := {|
  session := MemSession;
  Trial := string * Z;
  number_of_trial := snd;
  create_study := mem_create;
  ask := mem_ask;
  set_user_attr := mem_set_attr;
  tell := mem_tell;
  suggest_float := mem_suggest;
  session_trials := fun s name => DialIn.trials (ms_studies s) name;
  session_best_trial := fun s name => best_in_memory (ms_studies s) name;
  round_1 := fun q => round_half_up q 1
|}.

(** The same session behind a database that refuses to create studies. *)
Definition FailingSession : OptunaSession := {|
  session := MemSession;
  Trial := string * Z;
  number_of_trial := snd;
  create_study := fun s name => (Raise (Exception "connection lost"), s);
  ask := mem_ask;
  set_user_attr := mem_set_attr;
  tell := mem_tell;
  suggest_float := mem_suggest;
  session_trials := fun s name => DialIn.trials (ms_studies s) name;
  session_best_trial := fun s name => best_in_memory (ms_studies s) name;
  round_1 := fun q => round_half_up q 1
|}.

(** A study whose only trial is still running, and a report for a trial
    number that no study holds. *)
Definition running_storage : Storage := {[ "bean_b1_espresso" := [trial1] ]}.

Definition report7 : ReportData :=
  {| rd_bean_id := "b1"; rd_user_id := None; rd_method := "espresso";
     rd_trial_number := 7; rd_taste_score := 9 |}.

Definition report_b2 : ReportData :=
  {| rd_bean_id := "b2"; rd_user_id := None; rd_method := "espresso";
     rd_trial_number := 0; rd_taste_score := 9 |}.

Definition empty_session : MemSession :=
  {| ms_studies := ∅; ms_attrs := [] |}.

Definition empty_db : @SessionDb InMemorySession :=
  @Up InMemorySession empty_session.

Definition failing_db : @SessionDb FailingSession :=
  @Up FailingSession empty_session.

Definition first_request : ShotData :=
  {| bean_id := "b1"; user_id := None; method := "espresso";
     grind := None; dose := None; time := None; taste_score := None |}.

Definition feedback_request : ShotData :=
  {| bean_id := "b1"; user_id := None; method := "espresso";
     grind := Some 12; dose := Some 18; time := Some 28;
     taste_score := Some 7.5 |}.

(** Feedback that lacks the grind setting. *)
Definition score_only_request : ShotData :=
  {| bean_id := "b1"; user_id := None; method := "espresso";
     grind := None; dose := Some 18; time := Some 28;
     taste_score := Some 7.5 |}.

(** *** A predictor and a one-point optimizer *)

Definition linear_predict (params : list (string * Q))
    : result (list (string * Q)) :=
  let g := get params "grindSize" 12 in
  Ok [("shotQuality", 7); ("sweetness", g / 2); ("acidity", 5);
      ("bitterness", 10 - g / 2); ("body", 6)]%string.

Definition midpoint_max (f : list (string * Q) -> result Q)
    (bounds : list (string * (Q * Q))) : result (Q * list (string * Q)) :=
  let params :=
    map (fun kb => (fst kb, Qred ((fst (snd kb) + snd (snd kb)) / 2))) bounds in
  do target <- f params;
  Ok (target, params).

#[export] Instance MidpointBayes : BayesOpt := {|
  predictor_predict := linear_predict;
  optimizer_max := midpoint_max
|}.

Definition sample_bounds : list (string * (Q * Q)) :=
  [("grindSize", (8, 16)); ("temperature", (88, 96))]%string.

(** A request that passes the validation with a temperature that is a
    string. *)
Definition hot_params : list (string * json) :=
  [("grindSize", JNum 12); ("extractionTime", JNum 28);
   ("inWeight", JNum 18); ("outWeight", JNum 36);
   ("temperature", JStr "hot")]%string.

(** Recommended parameters, the current ones and ranges for them. *)
Definition recommended_params : list (string * pvalue) :=
  [("grindSize", PFloat (Some 13)); ("temperature", PFloat (Some 93));
   ("usedPuckScreen", PObject "no")]%string.

Definition current_params_11 : list (string * Q) :=
  [("grindSize", 11); ("temperature", 93)]%string.

Definition grind_range : list (string * (Q * Q)) :=
  [("grindSize", (10, 12))]%string.

Definition prediction_params : list (string * json) :=
  [("grindSize", JNum 12); ("extractionTime", JNum 28);
   ("inWeight", JNum 18); ("outWeight", JNum 36);
   ("temperature", JNum 97)]%string.

End Reference2.

(** * Properties of the dial-in optimizer *)

Module DialInFacts.

Import DialIn Reference.

Section Facts.
Context `{O : Optuna}.

Lemma trials_lookup (st : Storage) (name : string) :
  trials st name = [] -> st !! name = None \/ st !! name = Some [].
Proof.
  unfold trials. destruct (st !! name) as [ts|]; simpl.
  - intros ->. now right.
  - now left.
Qed.


Lemma load_study_found (st : Storage) (name : string) (ts : list FrozenTrial) :
  st !! name = Some ts -> load_study st name = Ok name.
Proof. unfold load_study. now intros ->. Qed.

Lemma load_study_unknown (st : Storage) (name : string) :
  st !! name = None -> load_study st name = Raise (KeyError (unknown_study_msg name)).
Proof. unfold load_study. now intros ->. Qed.


(** C7, as the handlers have it.  For a context without any trial:
    [get_best_parameters] fails with 404 whether the study is unknown or
    exists with an empty trial list; [get_optimization_status] answers
    [not_started] with 0 trials when the study is unknown, and [active] with
    0 trials, no best trial and no recent trials when the study exists and
    is empty. *)
Theorem zero_trials_status_and_best (st : Storage) (bean_id : string)
    (user_id : option string) (method : string) :
  trials st (get_study_name bean_id user_id method) = [] ->
  (exists detail,
     get_best_parameters (Reachable st) bean_id user_id method
     = Raise (HTTPException 404 detail))
  /\ (st !! get_study_name bean_id user_id method = None ->
      get_optimization_status (Reachable st) bean_id user_id method
      = Ok (NotStarted (get_study_name bean_id user_id method) 0))
  /\ (st !! get_study_name bean_id user_id method = Some [] ->
      get_optimization_status (Reachable st) bean_id user_id method
      = Ok (Active (get_study_name bean_id user_id method) 0 None [])).
Proof.
  intros Hzero. repeat split.
  - unfold get_best_parameters, get_best_parameters_body; simpl.
    destruct (trials_lookup _ _ Hzero) as [Hnone | Hempty].
    + rewrite (load_study_unknown _ _ Hnone); simpl. eauto.
    + rewrite (load_study_found _ _ _ Hempty), Hzero; simpl. eauto.
  - intros Hnone.
    unfold get_optimization_status, get_optimization_status_body; simpl.
    now rewrite (load_study_unknown _ _ Hnone).
  - intros Hempty.
    unfold get_optimization_status, get_optimization_status_body; simpl.
    now rewrite (load_study_found _ _ _ Hempty), Hzero.
Qed.

(** The handlers add nothing to [study.best_trial]: for a study with
    trials the status shows the trial the library returns. *)
Lemma status_shows_library_best (st : Storage) (bean_id : string)
    (user_id : option string) (method : string) (ts : list FrozenTrial)
    (bt : FrozenTrial) :
  st !! get_study_name bean_id user_id method = Some ts ->
  ts <> [] ->
  study_best_trial st (get_study_name bean_id user_id method) = Ok bt ->
  exists recent,
    get_optimization_status (Reachable st) bean_id user_id method
    = Ok (Active (get_study_name bean_id user_id method) (length ts)
            (Some (best_info bt)) recent).
Proof.
  intros Hts Hne Hbest.
  unfold get_optimization_status, get_optimization_status_body; simpl.
  rewrite (load_study_found _ _ _ Hts). unfold trials. rewrite Hts; simpl.
  destruct ts as [|t ts']; [contradiction|]. simpl.
  rewrite Hbest; simpl. eauto.
Qed.

(** An exception of [study.best_trial] on a study with trials reaches the
    caller of the status endpoint as a 500 error. *)
Lemma status_fails_with_library (st : Storage) (bean_id : string)
    (user_id : option string) (method : string) (ts : list FrozenTrial)
    (msg : string) :
  st !! get_study_name bean_id user_id method = Some ts ->
  ts <> [] ->
  study_best_trial st (get_study_name bean_id user_id method)
  = Raise (ValueError msg) ->
  get_optimization_status (Reachable st) bean_id user_id method
  = Raise (HTTPException 500 ("Failed to get status: " ++ msg)).
Proof.
  intros Hts Hne Hbest.
  unfold get_optimization_status, get_optimization_status_body; simpl.
  rewrite (load_study_found _ _ _ Hts). unfold trials. rewrite Hts; simpl.
  destruct ts as [|t ts']; [contradiction|]. simpl.
  now rewrite Hbest.
Qed.

End Facts.


Lemma zero_trials_status_and_best_witness :
  trials empty_study_storage (get_study_name "b1" None "espresso") = []
  /\ exists detail,
       get_best_parameters (Reachable empty_study_storage) "b1" None "espresso"
       = Raise (HTTPException 404 detail).
Proof.
  split; [vm_compute; reflexivity|].
  apply (zero_trials_status_and_best empty_study_storage "b1" None "espresso").
  vm_compute; reflexivity.
Defined.

(** C7 as the specification words it fails on a study that exists and holds
    no trial: the context has zero trials, and the status is [active]. *)
Lemma empty_study_is_reported_active :
  trials empty_study_storage (get_study_name "b1" None "espresso") = []
  /\ exists r,
       get_optimization_status (Reachable empty_study_storage)
         "b1" None "espresso" = Ok r
       /\ total_trials_of r = 0%nat
       /\ status_of r = "active"
       /\ status_of r <> "not_started".
Proof.
  split; [vm_compute; reflexivity|].
  exists (Active "bean_b1_espresso" 0 None []).
  repeat split; try (vm_compute; reflexivity).
  discriminate.
Qed.

End DialInFacts.

(** * Properties of the clustering recommender *)

Module RecommenderFacts.

Import Recommender Spec Reference.
Local Open Scope Q_scope.

(** ** Masks and selections *)

Lemma mask_select_map {A} (f : A -> bool) (l : list A) :
  mask_select (map f l) l = List.filter f l.
Proof.
  induction l as [|x l IH]; simpl; [reflexivity|].
  destruct (f x); now rewrite IH.
Qed.


Lemma Qlt_b_spec (x y : Q) : Qlt_b x y = true <-> x < y.
Proof.
  unfold Qlt_b. rewrite negb_true_iff, <- not_true_iff_false, Qle_bool_iff.
  split; [apply Qnot_le_lt | apply Qlt_not_le].
Qed.





Section Facts.
Context `{L : SciLib}.



(** ** Aggregation *)

Lemma parameter_features_NoDup : List.NoDup parameter_features.
Proof.
  unfold parameter_features.
  repeat (constructor; [simpl; intuition discriminate|]). constructor.
Qed.

Lemma aggregate_params_lookup (features : list string) (best_shots : DataFrame)
    (ps : list (string * pvalue)) (param : string) (c : column) :
  List.NoDup features ->
  In param features ->
  aggregate_params features best_shots = Ok ps ->
  lookup_key (param_columns best_shots) param = Some c ->
  exists v, aggregate c = Ok v /\ lookup_key ps param = Some v.
Proof.
  revert ps. induction features as [|f rest IH]; intros ps Hnd Hin Hagg Hcol.
  - destruct Hin.
  - inversion Hnd as [|? ? Hnotin Hnd']; subst. simpl in Hagg.
    destruct Hin as [-> | Hin].
    + rewrite Hcol in Hagg.
      destruct (aggregate c) as [v|e]; simpl in Hagg; [|discriminate].
      destruct (aggregate_params rest best_shots) as [vs|e]; simpl in Hagg;
        [|discriminate].
      injection Hagg as <-. exists v. split; [reflexivity|].
      simpl. now rewrite String.eqb_refl.
    + assert (Hne : String.eqb f param = false).
      { apply String.eqb_neq. intros ->. contradiction. }
      destruct (lookup_key (param_columns best_shots) f) as [c0|].
      * destruct (aggregate c0) as [v0|e]; simpl in Hagg; [|discriminate].
        destruct (aggregate_params rest best_shots) as [vs|e] eqn:Hrest;
          simpl in Hagg; [|discriminate].
        injection Hagg as <-.
        destruct (IH vs Hnd' Hin eq_refl Hcol) as [v [Hv Hl]].
        exists v. split; [exact Hv|]. simpl. now rewrite Hne.
      * now apply IH.
Qed.

(** C4, as the code has it.  Over the selected quality shots, a parameter
    whose column has dtype float64, int64 or bool is aggregated by the
    arithmetic mean (a boolean counting as 1 or 0); a column of any other
    dtype is aggregated to the first entry of its [mode()]. *)
Theorem aggregation_by_dtype (cluster_shots : DataFrame)
    (ps : list (string * pvalue)) (param : string) (c : column) :
  In param parameter_features ->
  lookup_key (param_columns (quality_shots cluster_shots)) param = Some c ->
  aggregate_params parameter_features (quality_shots cluster_shots) = Ok ps ->
  match c with
  | ColFloat l => lookup_key ps param = Some (PFloat (mean l))
  | ColInt l => lookup_key ps param = Some (PFloat (mean (map inject_Z l)))
  | ColBool l => lookup_key ps param = Some (PFloat (mean (map bool_q l)))
  | ColObject l =>
      exists m rest, mode l = m :: rest /\ lookup_key ps param = Some (PObject m)
  end.
Proof.
  intros Hin Hcol Hagg.
  destruct (aggregate_params_lookup _ _ _ _ _ parameter_features_NoDup
              Hin Hagg Hcol) as [v [Hv Hl]].
  destruct c as [l|l|l|l]; simpl in Hv; try (injection Hv as <-; exact Hl).
  destruct (mode l) as [|m rest]; [discriminate|].
  injection Hv as <-. now exists m, rest.
Qed.

(** ** Confidence *)

Lemma py_max_finite (a b : Q) : py_max (Some a) (Some b) = Some (Qmax a b).
Proof.
  unfold py_max, f_lt, Qlt_b, Qmax, GenericMinMax.gmax, Qle_bool, Qcompare.
  destruct (Z.leb_spec (Qnum b * QDen a) (Qnum a * QDen b)) as [H|H]; simpl.
  - destruct (Z.compare_spec (Qnum a * QDen b) (Qnum b * QDen a));
      try reflexivity; lia.
  - destruct (Z.compare_spec (Qnum a * QDen b) (Qnum b * QDen a));
      try reflexivity; lia.
Qed.

Lemma py_min_finite (a b : Q) : py_min (Some a) (Some b) = Some (Qmin a b).
Proof.
  unfold py_min, f_lt, Qlt_b, Qmin, GenericMinMax.gmin, Qle_bool, Qcompare.
  destruct (Z.leb_spec (Qnum a * QDen b) (Qnum b * QDen a)) as [H|H]; simpl.
  - destruct (Z.compare_spec (Qnum a * QDen b) (Qnum b * QDen a));
      try reflexivity; lia.
  - destruct (Z.compare_spec (Qnum a * QDen b) (Qnum b * QDen a));
      try reflexivity; lia.
Qed.


Lemma clamp01_bounds (x : Q) : 0 <= Qmax 0 (Qmin 1 x) /\ Qmax 0 (Qmin 1 x) <= 1.
Proof.
  split; [apply Q.le_max_l|].
  apply Q.max_lub; [lra | apply Q.le_min_l].
Qed.




(** ** The steps of [recommend] *)


Lemma bind_ok {A B} (r : result A) (k : A -> result B) (b : B) :
  bind r k = Ok b -> exists a, r = Ok a /\ k a = Ok b.
Proof. destruct r as [a|e]; simpl; [eauto | discriminate]. Qed.

Lemma recommend_steps (self : ClusteringRecommender)
    (target_profile : list (string * Q)) (constraints : option Constraints)
    (current_params : option (list (string * Q))) (r : Recommendation) :
  recommend self target_profile constraints current_params = Ok r ->
  exists hist target_scaled cluster_id cluster_shots params,
    historical_shots self = Some hist
    /\ transform (scaler self) (target_array target_profile) = Ok target_scaled
    /\ predict (clusterer self) target_scaled = Ok cluster_id
    /\ cluster_select hist cluster_id = Ok cluster_shots
    /\ aggregate_params parameter_features (quality_shots cluster_shots)
       = Ok params
    /\ match constraints with
       | Some c => _apply_constraints params c
       | None => Ok params
       end = Ok (primary r)
    /\ _calculate_confidence self (quality_shots cluster_shots) cluster_shots
         target_scaled = Ok (confidence r)
    /\ expectedOutcome r = expected_outcome (quality_shots cluster_shots)
    /\ distanceFromTarget r
       = _calculate_taste_distance
           (expected_outcome (quality_shots cluster_shots)) target_profile
    /\ clusterSize r = len cluster_shots
    /\ qualityShotsCount r = len (quality_shots cluster_shots).
Proof.
  unfold recommend. destruct (historical_shots self) as [hist|]; [|discriminate].
  intros H.
  apply bind_ok in H as [ts [Hts H]].
  apply bind_ok in H as [cid [Hcid H]].
  apply bind_ok in H as [cs [Hcs H]].
  apply bind_ok in H as [ps [Hps H]].
  apply bind_ok in H as [ps' [Hps' H]].
  apply bind_ok in H as [conf [Hconf H]].
  apply bind_ok in H as [ex [Hex H]].
  injection H as <-. simpl.
  exists hist, ts, cid, cs, ps. repeat split; assumption.
Qed.


(** ** Absent taste dimensions *)

Lemma has_key_false {A} (d : list (string * A)) (key : string) :
  has_key d key = false <-> lookup_key d key = None.
Proof.
  unfold has_key. destruct (lookup_key d key); split; congruence.
Qed.

Lemma get_lookup {A} (d : list (string * A)) (key : string) (dflt : A) :
  get d key dflt = match lookup_key d key with Some v => v | None => dflt end.
Proof.
  induction d as [|[k v] d IH]; simpl; [reflexivity|].
  now destruct (String.eqb k key).
Qed.

Lemma lookup_key_app {A} (d d' : list (string * A)) (key : string) :
  lookup_key (d ++ d') key
  = match lookup_key d key with
    | Some v => Some v
    | None => lookup_key d' key
    end.
Proof.
  induction d as [|[k v] d IH]; simpl; [reflexivity|].
  now destruct (String.eqb k key).
Qed.

Lemma lookup_with_default (dim key : string) (t : list (string * Q)) :
  lookup_key (with_default dim t) key
  = match lookup_key t key with
    | Some v => Some v
    | None => if String.eqb dim key then Some 5 else None
    end.
Proof.
  unfold with_default, has_key.
  destruct (lookup_key t dim) as [v|] eqn:E.
  - destruct (lookup_key t key) eqn:E'; [reflexivity|].
    destruct (String.eqb_spec dim key) as [->|]; [congruence | reflexivity].
  - rewrite lookup_key_app. simpl. reflexivity.
Qed.

Lemma get_with_default (dim key : string) (t : list (string * Q)) :
  get (with_default dim t) key 5 = get t key 5.
Proof.
  rewrite !get_lookup, lookup_with_default.
  destruct (lookup_key t key); [reflexivity|].
  now destruct (String.eqb dim key).
Qed.

Lemma get_with_defaults (key : string) (t : list (string * Q)) :
  get (with_defaults t) key 5 = get t key 5.
Proof.
  unfold with_defaults, taste_features. simpl.
  now rewrite !get_with_default.
Qed.

Lemma lookup_with_defaults (dim : string) (t : list (string * Q)) :
  In dim taste_features ->
  lookup_key (with_defaults t) dim = Some (get t dim 5).
Proof.
  intros Hin. rewrite get_lookup.
  unfold with_defaults, taste_features in *. simpl in *.
  rewrite !lookup_with_default.
  destruct (lookup_key t dim); [reflexivity|].
  repeat (destruct Hin as [<- | Hin];
          [rewrite String.eqb_refl; now repeat destruct (String.eqb _ _)|]).
  destruct Hin.
Qed.

Lemma target_array_with_defaults (t : list (string * Q)) :
  target_array (with_defaults t) = target_array t.
Proof. unfold target_array. now rewrite !get_with_defaults. Qed.

Lemma taste_distance_with_defaults (outcome : list (string * fnum))
    (t : list (string * Q)) :
  _calculate_taste_distance outcome (with_defaults t)
  = _calculate_taste_distance outcome t.
Proof. unfold _calculate_taste_distance. now rewrite !get_with_defaults. Qed.

Lemma recommend_with_defaults (self : ClusteringRecommender)
    (target_profile : list (string * Q)) (constraints : option Constraints)
    (current_params : option (list (string * Q))) :
  recommend self target_profile constraints current_params
  = recommend self (with_defaults target_profile) constraints current_params.
Proof.
  unfold recommend.
  destruct (historical_shots self) as [hist|]; [|reflexivity].
  rewrite target_array_with_defaults.
  destruct (transform _ _) as [ts|]; cbn [bind]; [|reflexivity].
  destruct (predict _ _) as [cid|]; cbn [bind]; [|reflexivity].
  destruct (cluster_select _ _) as [cs|]; cbn [bind]; [|reflexivity].
  destruct (aggregate_params _ _) as [ps|]; cbn [bind]; [|reflexivity].
  destruct (match constraints with Some _ => _ | None => _ end) as [ps'|];
    cbn [bind]; [|reflexivity].
  destruct (_calculate_confidence _ _ _ _) as [conf|]; cbn [bind];
    [|reflexivity].
  now rewrite taste_distance_with_defaults.
Qed.

Lemma target_array_or_5 (target_profile : list (string * Q)) :
  target_array target_profile = target_or_5 target_profile.
Proof.
  unfold target_array, target_or_5, value_or_5. now rewrite !get_lookup.
Qed.

Lemma taste_distance_or_5 (best_shots : DataFrame)
    (target_profile : list (string * Q)) :
  _calculate_taste_distance (expected_outcome best_shots) target_profile
  = match mean (sweetness best_shots), mean (acidity best_shots),
          mean (bitterness best_shots), mean (body best_shots) with
    | Some a, Some b, Some c, Some d =>
        Some (linalg_norm (vsub [a; b; c; d] (target_or_5 target_profile)))
    | _, _, _, _ => None
    end.
Proof.
  unfold _calculate_taste_distance.
  change [get target_profile "sweetness" 5; get target_profile "acidity" 5;
          get target_profile "bitterness" 5; get target_profile "body" 5]
    with (target_array target_profile).
  rewrite target_array_or_5.
  change (get (expected_outcome best_shots) "sweetness" (Some 5))
    with (mean (sweetness best_shots)).
  change (get (expected_outcome best_shots) "acidity" (Some 5))
    with (mean (acidity best_shots)).
  change (get (expected_outcome best_shots) "bitterness" (Some 5))
    with (mean (bitterness best_shots)).
  change (get (expected_outcome best_shots) "body" (Some 5))
    with (mean (body best_shots)).
  destruct (mean (sweetness best_shots)), (mean (acidity best_shots)),
    (mean (bitterness best_shots)), (mean (body best_shots)); reflexivity.
Qed.

(** C9.  [ClusteringRecommender.recommend] works on the vector of the four
    taste dimensions in which an absent dimension has the value 5.  Every
    returned recommendation was assigned its cluster by scaling this vector
    and passing it to the clusterer, its [clusterSize] is the size of that
    cluster, and its [distanceFromTarget] is the norm of the difference
    between the mean tastes of the quality shots and this vector.  The call
    succeeds whenever the library steps succeed on this vector; which
    dimensions are present plays no other part, so the whole outcome is the
    one for the profile with 5 written in for the absent dimensions. *)
Theorem absent_dimensions_default_to_5 (self : ClusteringRecommender)
    (target_profile : list (string * Q)) (constraints : option Constraints)
    (current_params : option (list (string * Q))) :
  (forall dim, lookup_key target_profile dim = None ->
     value_or_5 target_profile dim = 5)
  /\ (forall r,
        recommend self target_profile constraints current_params = Ok r ->
        exists hist target_scaled cluster_id cluster_shots,
          historical_shots self = Some hist
          /\ transform (scaler self) (target_or_5 target_profile)
             = Ok target_scaled
          /\ predict (clusterer self) target_scaled = Ok cluster_id
          /\ cluster_select hist cluster_id = Ok cluster_shots
          /\ clusterSize r = len cluster_shots
          /\ distanceFromTarget r
             = match mean (sweetness (quality_shots cluster_shots)),
                     mean (acidity (quality_shots cluster_shots)),
                     mean (bitterness (quality_shots cluster_shots)),
                     mean (body (quality_shots cluster_shots)) with
               | Some a, Some b, Some c, Some d =>
                   Some (linalg_norm
                           (vsub [a; b; c; d] (target_or_5 target_profile)))
               | _, _, _, _ => None
               end)
  /\ (forall hist target_scaled cluster_id cluster_shots params params'
             conf ex,
        historical_shots self = Some hist ->
        transform (scaler self) (target_or_5 target_profile)
        = Ok target_scaled ->
        predict (clusterer self) target_scaled = Ok cluster_id ->
        cluster_select hist cluster_id = Ok cluster_shots ->
        aggregate_params parameter_features (quality_shots cluster_shots)
        = Ok params ->
        match constraints with
        | Some c => _apply_constraints params c
        | None => Ok params
        end = Ok params' ->
        _calculate_confidence self (quality_shots cluster_shots) cluster_shots
          target_scaled = Ok conf ->
        _generate_explanation params' current_params
          (expected_outcome (quality_shots cluster_shots)) target_profile
        = Ok ex ->
        exists r,
          recommend self target_profile constraints current_params = Ok r
          /\ primary r = params' /\ confidence r = conf
          /\ clusterSize r = len cluster_shots)
  /\ recommend self target_profile constraints current_params
     = recommend self (with_defaults target_profile) constraints current_params
  /\ (forall dim, In dim taste_features ->
        lookup_key (with_defaults target_profile) dim
        = Some (value_or_5 target_profile dim)).
Proof.
  split; [|split; [|split; [|split]]].
  - intros dim Hnone. unfold value_or_5. now rewrite Hnone.
  - intros r Hrec.
    destruct (recommend_steps _ _ _ _ _ Hrec)
      as (hist & ts & cid & cs & ps & Hh & Hts & Hcid & Hcs & _ & _ & _
          & _ & Hdist & Hsize & _).
    rewrite target_array_or_5 in Hts. exists hist, ts, cid, cs.
    do 5 (split; [assumption|]).
    rewrite Hdist. apply taste_distance_or_5.
  - intros hist ts cid cs ps ps' conf ex Hh Hts Hcid Hcs Hps Hps' Hconf Hex.
    unfold recommend. rewrite Hh, target_array_or_5, Hts. cbn [bind].
    rewrite Hcid. cbn [bind]. rewrite Hcs. cbn [bind].
    rewrite Hps. cbn [bind]. rewrite Hps'. cbn [bind].
    rewrite Hconf. cbn [bind]. rewrite Hex. cbn [bind].
    eexists. split; [reflexivity|]. repeat split.
  - apply recommend_with_defaults.
  - intros dim Hin. rewrite (lookup_with_defaults dim target_profile Hin).
    unfold value_or_5. now rewrite get_lookup.
Qed.

End Facts.

Lemma aggregation_by_dtype_witness :
  lookup_key (param_columns (quality_shots shots12)) "usedWDT"
  = Some (ColBool [true; true; true; false; true; true; true])
  /\ exists ps,
       aggregate_params parameter_features (quality_shots shots12) = Ok ps
       /\ lookup_key ps "usedWDT"
          = Some (PFloat (mean (map bool_q
                                  [true; true; true; false; true; true; true]))).
Proof.
  split; [vm_compute; reflexivity|].
  eexists. split; [vm_compute; reflexivity|].
  apply (aggregation_by_dtype shots12 _ "usedWDT"
           (ColBool [true; true; true; false; true; true; true]));
    [simpl; tauto | vm_compute; reflexivity | vm_compute; reflexivity].
Defined.

(** C4 as the specification words it fails for a boolean parameter: among
    the seven quality shots of [shots12] the flag [usedWDT] is true six
    times, so its most frequent value is [true], and the code recommends
    6/7. *)
Lemma boolean_parameter_is_averaged :
  let flags := [true; true; true; false; true; true; true] in
  lookup_key (param_columns (quality_shots shots12)) "usedWDT"
  = Some (ColBool flags)
  /\ spec_mode Bool.eqb flags = Some true
  /\ exists ps,
       aggregate_params parameter_features (quality_shots shots12) = Ok ps
       /\ lookup_key ps "usedWDT" = Some (PFloat (Some (6 # 7)))
       /\ ~ (6 # 7 == bool_q true).
Proof.
  repeat split; try (vm_compute; reflexivity).
  eexists. repeat split; try (vm_compute; reflexivity).
  intros H. vm_compute in H. discriminate.
Qed.


(** The three tiers on small clusters. *)
Example quality_tier_1 :
  shotQuality (quality_shots (cluster_of_qualities [8; 6; 5; 7])) = [8; 7].
Proof. reflexivity. Qed.

Example quality_tier_2 :
  shotQuality (quality_shots (cluster_of_qualities [6.5; 6; 5])) = [6.5; 6].
Proof. reflexivity. Qed.

Example quality_tier_3 :
  shotQuality (quality_shots (cluster_of_qualities [5; 4])) = [5; 4].
Proof. reflexivity. Qed.




Lemma absent_dimensions_default_to_5_witness :
  lookup_key [("sweetness", 8)] "body" = None
  /\ target_or_5 [("sweetness", 8)] = [8; 5; 5; 5]
  /\ exists r target_scaled d,
       recommend recommender12 [("sweetness", 8)] None None = Ok r
       /\ transform (scaler recommender12) [8; 5; 5; 5] = Ok target_scaled
       /\ predict (clusterer recommender12) target_scaled = Ok 0%nat
       /\ clusterSize r = 12%nat
       /\ distanceFromTarget r = Some d.
Proof.
  split; [reflexivity|]. split; [reflexivity|].
  destruct (recommend recommender12 [("sweetness", 8)] None None)
    as [r|] eqn:Hrec; [|vm_compute in Hrec; discriminate].
  destruct (proj1 (proj2 (absent_dimensions_default_to_5 recommender12
                            [("sweetness", 8)] None None)) r Hrec)
    as (hist & ts & cid & cs & Hh & Hts & Hcid & Hcs & Hsize & Hdist).
  vm_compute in Hh. injection Hh as <-.
  assert (Ecid : cid = 0%nat).
  { vm_compute in Hts. injection Hts as <-.
    vm_compute in Hcid. now injection Hcid as <-. }
  subst cid.
  assert (Ecs : len cs = 12%nat)
    by (vm_compute in Hcs; injection Hcs as <-; reflexivity).
  destruct (distanceFromTarget r) as [d|] eqn:Hd;
    [|exfalso; vm_compute in Hrec; injection Hrec as <-; discriminate].
  exists r, ts, d. split; [reflexivity|]. split; [exact Hts|].
  split; [exact Hcid|]. split; [now rewrite Hsize | exact Hd].
Defined.

End RecommenderFacts.

(** * Properties of the recommendation service *)

Module MlServiceFacts.

Import Recommender MlService Spec Reference.
Local Open Scope Q_scope.

(** ** Validation of the target profile *)

Lemma invalid_taste_value (v : json) :
  valid_taste_value v = false
  <-> number_of v = None
      \/ exists q, number_of v = Some q /\ (q < 1 \/ 10 < q).
Proof.
  unfold valid_taste_value. destruct (number_of v) as [q|].
  - rewrite negb_false_iff, orb_true_iff, !RecommenderFacts.Qlt_b_spec.
    split.
    + intros H. right. now exists q.
    + intros [H | (q' & [= <-] & H)]; [discriminate | exact H].
  - split; [now left | reflexivity].
Qed.

Lemma check_values_first_invalid (tp : list (string * json)) (dim : string) :
  check_values tp = inl dim ->
  exists pre v post,
    tp = (pre ++ (dim, v) :: post)%list
    /\ Forall (fun kv => valid_taste_value (snd kv) = true) pre
    /\ valid_taste_value v = false.
Proof.
  induction tp as [|[k v] tp IH]; simpl; [discriminate|].
  unfold valid_taste_value at 1.
  destruct (number_of v) as [q|] eqn:Hn.
  - destruct (negb (Qlt_b q 1 || Qlt_b 10 q)) eqn:Hv.
    + destruct (check_values tp) as [d|l]; [|discriminate].
      intros [= ->]. destruct (IH eq_refl) as (pre & v' & post & -> & Hpre & Hv').
      exists ((k, v) :: pre), v', post. repeat split; [|exact Hv'].
      constructor; [|exact Hpre]. simpl. unfold valid_taste_value.
      now rewrite Hn.
    + intros [= ->]. exists [], v, tp. repeat split; [constructor|].
      unfold valid_taste_value. now rewrite Hn.
  - intros [= ->]. exists [], v, tp. repeat split; [constructor|].
    unfold valid_taste_value. now rewrite Hn.
Qed.

Lemma check_values_rejects (tp : list (string * json)) (key : string)
    (v : json) :
  In (key, v) tp -> valid_taste_value v = false ->
  exists dim, check_values tp = inl dim.
Proof.
  induction tp as [|[k w] tp IH]; intros Hin Hv; [destruct Hin|].
  simpl. unfold valid_taste_value at 1.
  destruct (number_of w) as [q|] eqn:Hn; [|eauto].
  destruct (negb (Qlt_b q 1 || Qlt_b 10 q)) eqn:Hw; [|eauto].
  destruct Hin as [[= -> ->] | Hin].
  - unfold valid_taste_value in Hv. rewrite Hn in Hv. congruence.
  - destruct (IH Hin Hv) as [dim ->]. eauto.
Qed.

Lemma missing_dims_nil (tp : list (string * json)) :
  missing_dims tp = []
  <-> forall dim, In dim required_taste_dims -> lookup_key tp dim <> None.
Proof.
  unfold missing_dims. split.
  - intros Hnil dim Hin Hnone.
    assert (Hm : In dim (List.filter (fun dim => negb (has_key tp dim))
                           required_taste_dims)).
    { apply filter_In. split; [exact Hin|].
      apply negb_true_iff. now apply RecommenderFacts.has_key_false. }
    rewrite Hnil in Hm. destruct Hm.
  - intros Hall.
    destruct (List.filter _ _) as [|dim rest] eqn:E; [reflexivity|].
    assert (Hm : In dim (List.filter (fun dim => negb (has_key tp dim))
                           required_taste_dims))
      by (rewrite E; now left).
    apply filter_In in Hm. destruct Hm as [Hin Hk].
    apply negb_true_iff, RecommenderFacts.has_key_false in Hk.
    now destruct (Hall dim Hin).
Qed.

Section Facts.
Context `{L : SciLib}.

Lemma recommend_missing (rec : ClusteringRecommender) (d : RecommendData)
    (tp : list (string * json)) :
  targetProfile d = Some tp -> tp <> [] -> missing_dims tp <> [] ->
  recommend (Some rec) (Some d)
  = (ErrorResponse
       ("Missing taste dimensions: " ++ String.concat ", " (missing_dims tp))
       400, []).
Proof.
  intros Htp Hne Hmiss. unfold recommend, empty_body. rewrite Htp.
  destruct (currentParams d), tp as [|kv tp]; try congruence;
    destruct (missing_dims (kv :: tp)); congruence.
Qed.

Lemma recommend_invalid (rec : ClusteringRecommender) (d : RecommendData)
    (tp : list (string * json)) (dim : string) :
  targetProfile d = Some tp -> missing_dims tp = [] ->
  check_values tp = inl dim ->
  recommend (Some rec) (Some d)
  = (ErrorResponse ("Invalid value for " ++ dim ++ ": must be between 1 and 10")
       400, []).
Proof.
  intros Htp Hmiss Hcheck. unfold recommend, empty_body. rewrite Htp.
  destruct tp as [|kv tp]; [discriminate|].
  rewrite Hmiss, Hcheck. now destruct (currentParams d).
Qed.

Lemma missing_dims_filter (tp : list (string * json)) :
  missing_dims tp
  = List.filter
      (fun dim => match lookup_key tp dim with Some _ => false | None => true end)
      required_taste_dims.
Proof.
  unfold missing_dims, has_key. apply filter_ext. intros dim.
  now destruct (lookup_key tp dim).
Qed.

Lemma recommend_no_profile (rec : ClusteringRecommender) (d : RecommendData) :
  empty_body d = false ->
  targetProfile d = None \/ targetProfile d = Some [] ->
  recommend (Some rec) (Some d)
  = (ErrorResponse "targetProfile is required" 400, []).
Proof.
  intros Hbody Htp. unfold recommend. rewrite Hbody.
  now destruct Htp as [-> | ->].
Qed.

(** C8, as the handler has it.  Without a recommender every request is
    answered with 503.  With a recommender and a body that is not empty: an
    absent or empty target profile is answered with 400 "targetProfile is
    required"; a non-empty profile that omits a taste dimension is answered
    with the 400 error that lists the omitted dimensions in the order
    sweetness, acidity, bitterness, body; a profile with all four dimensions
    and a value outside [1,10] is answered with the 400 error that names the
    first key, in the order of the profile, whose value fails the check.
    In each of these cases the recommender is not called. *)
Theorem taste_validation (rec : ClusteringRecommender) (d : RecommendData) :
  (forall data,
     recommend None data
     = (ErrorResponse
          "Recommendation engine not available. Need more historical data (10+ shots)."
          503, []))
  /\ (empty_body d = false ->
      targetProfile d = None \/ targetProfile d = Some [] ->
      recommend (Some rec) (Some d)
      = (ErrorResponse "targetProfile is required" 400, []))
  /\ (forall tp,
        targetProfile d = Some tp -> tp <> [] ->
        (exists dim, In dim required_taste_dims /\ lookup_key tp dim = None) ->
        let missing :=
          List.filter
            (fun dim =>
               match lookup_key tp dim with Some _ => false | None => true end)
            ["sweetness"; "acidity"; "bitterness"; "body"]%string in
        missing <> []
        /\ recommend (Some rec) (Some d)
           = (ErrorResponse
                ("Missing taste dimensions: " ++ String.concat ", " missing)
                400, []))
  /\ (forall tp key v q,
        targetProfile d = Some tp ->
        (forall dim, In dim required_taste_dims -> lookup_key tp dim <> None) ->
        In (key, v) tp -> number_of v = Some q -> q < 1 \/ 10 < q ->
        exists pre first w post,
          tp = (pre ++ (first, w) :: post)%list
          /\ Forall (fun kv => valid_taste_value (snd kv) = true) pre
          /\ valid_taste_value w = false
          /\ recommend (Some rec) (Some d)
             = (ErrorResponse
                  ("Invalid value for " ++ first ++ ": must be between 1 and 10")
                  400, [])).
Proof.
  split; [reflexivity|]. split; [apply recommend_no_profile|]. split.
  - intros tp Htp Hne (dim & Hin & Hnone).
    change ["sweetness"; "acidity"; "bitterness"; "body"]%string
      with required_taste_dims.
    rewrite <- missing_dims_filter.
    assert (Hmiss : missing_dims tp <> []).
    { intros Hnil. now apply (proj1 (missing_dims_nil tp) Hnil dim Hin). }
    split; [exact Hmiss | now apply (recommend_missing rec d tp)].
  - intros tp key v q Htp Hall Hin Hq Hout.
    apply missing_dims_nil in Hall.
    destruct (check_values_rejects tp key v Hin) as [first Hfirst].
    { apply invalid_taste_value. right. now exists q. }
    destruct (check_values_first_invalid tp first Hfirst)
      as (pre & w & post & Heq & Hpre & Hw).
    exists pre, first, w, post.
    split; [exact Heq|]. split; [exact Hpre|]. split; [exact Hw|].
    now apply (recommend_invalid rec d tp).
Qed.


(** ** Fitting *)

Lemma fit_outcome (self : ClusteringRecommender) (shots_df : DataFrame)
    (sc : StandardScaler) (scaled : list (list Q)) (km : KMeans) :
  fit_transform (scaler self) (taste_rows shots_df) = Ok (sc, scaled) ->
  kmeans_fit (clusterer self) scaled = Ok km ->
  fit self shots_df
  = (Ok tt,
     {| n_clusters := n_clusters self; clusterer := km; scaler := sc;
        historical_shots := Some (set_cluster shots_df (labels_ km)) |}).
Proof. intros Hs Hk. unfold fit. simpl. now rewrite Hs, Hk. Qed.

Lemma load_models_gate (model_ok : bool) (historical_df : option DataFrame)
    (r : ClusteringRecommender) :
  load_models model_ok historical_df = Some r ->
  exists df,
    historical_df = Some df /\ (10 < len df)%nat
    /\ fit (init (Nat.min 5 (len df / 10))) df = (Ok tt, r).
Proof.
  unfold load_models. destruct model_ok; [|discriminate].
  destruct historical_df as [df|]; [|discriminate].
  destruct (10 <? len df)%nat eqn:E; [|discriminate].
  destruct (fit _ df) as [[[]|e] r'] eqn:Hfit; [|discriminate].
  intros [= <-]. exists df.
  split; [reflexivity|]. split; [now apply Nat.ltb_lt | exact Hfit].
Qed.

(** C3, as the code has it.  The size test is in [load_models]: from fewer
    than 10 shots it never creates a recommender (the global stays unset and
    [/recommend] answers 503).  [ClusteringRecommender.fit] has no test of
    its own: it succeeds on a frame of any length that the scaler and
    k-means accept. *)
Theorem recommender_needs_ten_shots :
  (forall (model_ok : bool) (df : DataFrame),
     (len df < 10)%nat -> load_models model_ok (Some df) = None)
  /\ (forall (model_ok : bool) (df : DataFrame) (data : option RecommendData),
        (len df < 10)%nat ->
        recommend (load_models model_ok (Some df)) data
        = (ErrorResponse
             "Recommendation engine not available. Need more historical data (10+ shots)."
             503, []))
  /\ (forall (self : ClusteringRecommender) (shots_df : DataFrame)
             (sc : StandardScaler) (scaled : list (list Q)) (km : KMeans),
        fit_transform (scaler self) (taste_rows shots_df) = Ok (sc, scaled) ->
        kmeans_fit (clusterer self) scaled = Ok km ->
        fst (fit self shots_df) = Ok tt
        /\ historical_shots (snd (fit self shots_df))
           = Some (set_cluster shots_df (labels_ km))).
Proof.
  assert (Hgate : forall model_ok df,
             (len df < 10)%nat -> load_models model_ok (Some df) = None).
  { intros model_ok df Hlt. unfold load_models.
    destruct model_ok; [|reflexivity].
    assert (E : (10 <? len df)%nat = false) by (apply Nat.ltb_ge; lia).
    now rewrite E. }
  split; [exact Hgate|]. split.
  - intros model_ok df data Hlt. now rewrite (Hgate model_ok df Hlt).
  - intros self shots_df sc scaled km Hs Hk.
    now rewrite (fit_outcome self shots_df sc scaled km Hs Hk).
Qed.

End Facts.

Lemma taste_validation_witness :
  let tp := [("sweetness", JNum 8); ("acidity", JNum 5); ("body", JNum 7)] in
  let d := {| currentParams := None; targetProfile := Some tp;
              constraints := None; other_keys := [] |} in
  let tp' := [("sweetness", JNum 8); ("acidity", JNum 11);
              ("bitterness", JNum 0); ("body", JNum 7)] in
  let d' := {| currentParams := None; targetProfile := Some tp';
               constraints := None; other_keys := [] |} in
  lookup_key tp "bitterness" = None
  /\ recommend (Some recommender12) (Some d)
     = (ErrorResponse "Missing taste dimensions: bitterness" 400, [])
  /\ recommend (Some recommender12) (Some d')
     = (ErrorResponse "Invalid value for acidity: must be between 1 and 10"
          400, []).
Proof.
  intros tp d tp' d'. split; [reflexivity|]. split.
  - refine (proj2 (proj1 (proj2 (proj2 (taste_validation recommender12 d)))
                     tp eq_refl _ _)).
    + discriminate.
    + exists "bitterness". split; [simpl; tauto | reflexivity].
  - destruct (proj2 (proj2 (proj2 (taste_validation recommender12 d')))
                tp' "bitterness" (JNum 0) 0 eq_refl)
      as (pre & first & w & post & Heq & Hpre & Hw & Hresp).
    + intros dim [<- | [<- | [<- | [<- | []]]]]; discriminate.
    + simpl. tauto.
    + reflexivity.
    + left. reflexivity.
    + unfold tp' in Heq.
      destruct pre as [|p1 [|p2 pre]]; simpl in Heq.
      * injection Heq as <- <- _. discriminate Hw.
      * injection Heq as _ <- _ _. exact Hresp.
      * injection Heq as _ <- _. inversion Hpre as [|? ? _ Hpre'].
        inversion Hpre' as [|? ? H11 _]. discriminate H11.
Defined.


Lemma recommender_needs_ten_shots_witness :
  (len shots3 < 10)%nat
  /\ load_models true (Some shots3) = None
  /\ fst (fit (init 1) shots12) = Ok tt.
Proof.
  destruct (@recommender_needs_ten_shots OneClusterLib) as (H1 & _ & H3).
  split; [vm_compute; lia|]. split.
  - apply H1. vm_compute; lia.
  - eapply (H3 (init 1) shots12); vm_compute; reflexivity.
Defined.

(** C3 as the specification words it fails on [fit] itself: with one
    cluster, the frame of three shots is fitted. *)
Lemma fit_succeeds_below_ten_shots :
  (len shots3 < 10)%nat
  /\ fst (fit (init 1) shots3) = Ok tt
  /\ option_map cluster (historical_shots (snd (fit (init 1) shots3)))
     = Some (Some [0; 0; 0]%nat).
Proof.
  split; [vm_compute; lia|]. split; vm_compute; reflexivity.
Qed.

(** C8 as the specification words it fails on an empty target profile: it
    omits all four dimensions, and the answer is the error for an absent
    profile, not the one that lists the missing dimensions. *)
Lemma empty_profile_is_not_reported_missing :
  let d := {| currentParams := None; targetProfile := Some [];
              constraints := None; other_keys := [] |} in
  (forall dim, In dim required_taste_dims -> lookup_key (@nil (string * json)) dim = None)
  /\ missing_dims [] = required_taste_dims
  /\ recommend (Some recommender12) (Some d)
     = (ErrorResponse "targetProfile is required" 400, [])
  /\ fst (recommend (Some recommender12) (Some d))
     <> ErrorResponse
          ("Missing taste dimensions: " ++ String.concat ", " (missing_dims []))
          400.
Proof.
  intros d. split; [reflexivity|]. split; [reflexivity|].
  split; [reflexivity|]. vm_compute. discriminate.
Qed.

End MlServiceFacts.

(** * Further properties of the dial-in optimizer *)

Module DialInMore.

Import DialIn DialInAsk Reference Reference2.

(** ** Study names *)

Lemma append_cons (x : Ascii.ascii) (a b : string) :
  String x a ++ b = String x (a ++ b).
Proof. reflexivity. Qed.

Lemma append_empty (b : string) : "" ++ b = b.
Proof. reflexivity. Qed.

Lemma append_assoc (a b c : string) : (a ++ b) ++ c = a ++ (b ++ c).
Proof.
  induction a as [|x a IH]; [reflexivity|].
  now rewrite !append_cons, IH.
Qed.

Lemma length_append (a b : string) :
  String.length (a ++ b) = (String.length a + String.length b)%nat.
Proof.
  induction a as [|x a IH]; [reflexivity|].
  rewrite append_cons. simpl. now rewrite IH.
Qed.

Lemma append_inv_head (p a b : string) : p ++ a = p ++ b -> a = b.
Proof.
  induction p as [|x p IH]; [auto|].
  rewrite !append_cons. intros [= H]. now apply IH.
Qed.

Lemma named_user (bean_id u method : string) :
  u <> "" ->
  get_study_name bean_id (Some u) method
  = "user_" ++ u ++ "_bean_" ++ bean_id ++ "_" ++ method.
Proof.
  intros Hu. unfold get_study_name.
  destruct (String.eqb_spec u ""); [contradiction | reflexivity].
Qed.

(** A study of a user and a study without user never have the same name;
    an empty user id counts as no user. *)
Theorem user_and_anonymous_names_differ (bean_id u method bean_id' method' : string) :
  u <> "" ->
  get_study_name bean_id (Some u) method
  <> get_study_name bean_id' None method'
  /\ get_study_name bean_id (Some u) method
     <> get_study_name bean_id' (Some "") method'
  /\ get_study_name bean_id' (Some "") method'
     = get_study_name bean_id' None method'.
Proof.
  intros Hu. rewrite (named_user _ _ _ Hu).
  repeat split; unfold get_study_name; cbn [String.eqb];
    rewrite ?append_cons; discriminate.
Qed.

Lemma underscore_cons (m : string) :
  exists c, "_" ++ m = String c m /\ String.eqb (String c "") "_" = true.
Proof. eexists. split; reflexivity. Qed.

Lemma has_underscore_append (a m : string) :
  has_underscore (a ++ "_" ++ m) = true.
Proof.
  destruct (underscore_cons m) as (c & -> & Hc).
  induction a as [|x a IH].
  - rewrite append_empty. cbn [has_underscore]. now rewrite Hc.
  - rewrite append_cons. cbn [has_underscore]. rewrite IH. apply orb_true_r.
Qed.

Lemma split_at_last_underscore (a a' m m' : string) :
  has_underscore m = false -> has_underscore m' = false ->
  a ++ "_" ++ m = a' ++ "_" ++ m' -> a = a' /\ m = m'.
Proof.
  intros Hm Hm'. revert a'.
  induction a as [|x a IH]; intros [|y a'] H.
  - rewrite !append_empty in H. apply append_inv_head in H. now split.
  - destruct (underscore_cons m) as (c & Hc & _). rewrite Hc in H.
    rewrite append_empty, append_cons in H.
    injection H as _ H. subst m.
    rewrite has_underscore_append in Hm. discriminate.
  - destruct (underscore_cons m') as (c & Hc & _). rewrite Hc in H.
    rewrite append_empty, append_cons in H.
    injection H as _ H. subst m'.
    rewrite has_underscore_append in Hm'. discriminate.
  - rewrite !(append_cons _ _ (_ ++ _)) in H. injection H as -> H.
    destruct (IH a' H) as [-> ->]. now split.
Qed.

(** For one user (or none), two requests share a study only if they name the
    same bean and the same method, as long as the methods hold no
    underscore; the three methods that [ShotData] accepts hold none. *)
Theorem study_name_separates_beans_and_methods (user_id : option string)
    (bean_id bean_id' method method' : string) :
  (has_underscore method = false -> has_underscore method' = false ->
   get_study_name bean_id user_id method
   = get_study_name bean_id' user_id method' ->
   bean_id = bean_id' /\ method = method')
  /\ (forall m, validate_method m = Ok m -> has_underscore m = false).
Proof.
  split.
  - intros Hm Hm' H. unfold get_study_name in H.
    destruct user_id as [u|]; [destruct (String.eqb u "")|].
    + apply append_inv_head in H. now apply split_at_last_underscore.
    + do 3 apply append_inv_head in H. now apply split_at_last_underscore.
    + apply append_inv_head in H. now apply split_at_last_underscore.
  - intros m. unfold validate_method, allowed_methods. simpl.
    destruct (String.eqb_spec m "espresso") as [->|]; [reflexivity|].
    destruct (String.eqb_spec m "ristretto") as [->|]; [reflexivity|].
    destruct (String.eqb_spec m "lungo") as [->|]; [reflexivity|].
    discriminate.
Qed.

(** The name does not separate the user from the bean: the bean [b2] of the
    user [u_bean_b1] and the bean [b1_bean_b2] of the user [u] share one
    study. *)
Theorem study_names_collide (u b1 b2 method : string) :
  u <> "" ->
  b2 <> b1 ++ "_bean_" ++ b2
  /\ get_study_name b2 (Some (u ++ "_bean_" ++ b1)) method
     = get_study_name (b1 ++ "_bean_" ++ b2) (Some u) method.
Proof.
  intros Hu. split.
  - intros H. apply (f_equal String.length) in H.
    rewrite !length_append in H. simpl in H. lia.
  - rewrite (named_user _ u _ Hu).
    rewrite named_user.
    + now rewrite !append_assoc.
    + destruct u; [contradiction | discriminate].
Qed.

(** ** Reporting a result *)

Section Handlers.
Context `{O : Optuna}.

Lemma find_trial_none (ts : list FrozenTrial) (n : Z) :
  Forall (fun t => number t <> n) ts -> find_trial ts n = None.
Proof.
  unfold find_trial. induction 1 as [|t ts Ht _ IH]; [reflexivity|].
  simpl. now rewrite (proj2 (Z.eqb_neq _ _) Ht).
Qed.

(** A report for a trial number that the study does not hold is answered
    with 404, and the storage is left as it was. *)
Theorem report_unknown_trial (st : Storage) (data : ReportData)
    (ts : list FrozenTrial) :
  let name :=
    get_study_name (rd_bean_id data) (rd_user_id data) (rd_method data) in
  st !! name = Some ts ->
  Forall (fun t => number t <> rd_trial_number data) ts ->
  report_result (Reachable st) data
  = (Raise (HTTPException 404
              ("Trial " ++ str_int (rd_trial_number data)
               ++ " not found in study " ++ name)),
     Reachable st).
Proof.
  intros name Hts Hall.
  assert (Hfind : find_trial (trials st name) (rd_trial_number data) = None).
  { unfold trials. rewrite Hts. simpl. now apply find_trial_none. }
  unfold report_result, report_result_body; simpl. fold name.
  rewrite (DialInFacts.load_study_found _ _ _ Hts), Hfind. reflexivity.
Qed.

(** A report for a study that does not exist is not a 404: the [KeyError]
    of [load_study] is caught by the general handler and answered with 500.
    The storage is left as it was. *)
Theorem report_unknown_study (st : Storage) (data : ReportData) :
  let name :=
    get_study_name (rd_bean_id data) (rd_user_id data) (rd_method data) in
  st !! name = None ->
  report_result (Reachable st) data
  = (Raise (HTTPException 500
              ("Failed to report result: " ++ unknown_study_msg name)),
     Reachable st).
Proof.
  intros name Hnone.
  unfold report_result, report_result_body; simpl. fold name.
  now rewrite (DialInFacts.load_study_unknown _ _ Hnone).
Qed.

(** [report_result] changes the database only through [study.tell], and it
    calls [study.tell] only for a trial that it found and that is not
    COMPLETE. *)
Theorem report_changes_only_through_tell (db : Database) (data : ReportData) :
  snd (report_result db data) = db
  \/ exists st trial,
       let name :=
         get_study_name (rd_bean_id data) (rd_user_id data) (rd_method data) in
       db = Reachable st
       /\ find_trial (trials st name) (rd_trial_number data) = Some trial
       /\ state trial <> COMPLETE
       /\ snd (report_result db data)
          = Reachable (snd (study_tell st name trial (rd_taste_score data))).
Proof.
  destruct db as [err|st]; [now left|].
  unfold report_result, report_result_body; simpl.
  set (name := get_study_name _ _ _).
  unfold load_study. destruct (st !! name) as [ts|] eqn:Hts; [|now left].
  destruct (find_trial (trials st name) (rd_trial_number data))
    as [trial|] eqn:Hfind; [|now left].
  destruct (state trial) eqn:Hstate; simpl; try (now left);
    right; exists st, trial; simpl;
    (split; [reflexivity|]); (split; [exact Hfind|]);
    (split; [congruence|]);
    destruct (study_tell st name trial (rd_taste_score data)) as [[u|e] st'];
    simpl; try reflexivity;
    destruct (study_best_trial st' name); reflexivity.
Qed.

(** ** Status and best parameters *)

Lemma length_last5 {A} (l : list A) : (length (last5 l) <= 5)%nat.
Proof. unfold last5. rewrite length_skipn. lia. Qed.

Lemma last5_incl {A} (l : list A) (x : A) : In x (last5 l) -> In x l.
Proof.
  unfold last5. intros H.
  rewrite <- (firstn_skipn (length l - 5) l). apply in_or_app. now right.
Qed.

(** The status of an existing study counts every trial, whatever its state,
    and lists as recent trials exactly the COMPLETE ones among the last five
    trials: at most five entries, each of a COMPLETE trial of the study. *)
Theorem status_recent_trials (st : Storage) (bean_id : string)
    (user_id : option string) (method : string) (ts : list FrozenTrial)
    (r : StatusResponse) :
  st !! get_study_name bean_id user_id method = Some ts ->
  get_optimization_status (Reachable st) bean_id user_id method = Ok r ->
  exists best recent,
    r = Active (get_study_name bean_id user_id method) (length ts) best recent
    /\ (length recent <= 5)%nat
    /\ (forall s, In s recent <->
          exists t, In t (last5 ts) /\ state t = COMPLETE /\ s = summary t)
    /\ (forall s, In s recent ->
          exists t, In t ts /\ state t = COMPLETE /\ s = summary t).
Proof.
  intros Hts Hr.
  unfold get_optimization_status, get_optimization_status_body in Hr;
    simpl in Hr.
  rewrite (DialInFacts.load_study_found _ _ _ Hts) in Hr.
  unfold trials in Hr. rewrite Hts in Hr. simpl in Hr.
  set (recent := map summary
                   (List.filter (fun t => is_complete (state t)) (last5 ts)))
    in *.
  assert (Hrecent : forall s, In s recent <->
            exists t, In t (last5 ts) /\ state t = COMPLETE /\ s = summary t).
  { intros s. unfold recent. rewrite in_map_iff. split.
    - intros (t & <- & Hin). apply filter_In in Hin. destruct Hin as [Hin Hc].
      exists t. repeat split; [exact Hin|].
      destruct (state t); try discriminate; reflexivity.
    - intros (t & Hin & Hc & ->). exists t. split; [reflexivity|].
      apply filter_In. split; [exact Hin|]. now rewrite Hc. }
  assert (Hlen : (length recent <= 5)%nat).
  { unfold recent. rewrite length_map.
    etransitivity; [apply filter_length_le | apply length_last5]. }
  destruct (0 <? length ts)%nat.
  - destruct (study_best_trial st _) as [bt|e]; simpl in Hr.
    + injection Hr as <-. exists (Some (best_info bt)), recent.
      repeat split; try assumption; try apply Hrecent.
      intros s Hs. apply Hrecent in Hs as (t & Hin & Hc & ->).
      exists t. repeat split; [now apply last5_incl | exact Hc].
    + destruct e; discriminate.
  - simpl in Hr. injection Hr as <-. exists None, recent.
    repeat split; try assumption; try apply Hrecent.
    intros s Hs. apply Hrecent in Hs as (t & Hin & Hc & ->).
    exists t. repeat split; [now apply last5_incl | exact Hc].
Qed.

(** The best parameters answered are always the three entries grind, dose
    and time, in this order: each is the rounded value of the best trial, or
    the rounded 0 when the trial has no such parameter.  A best trial that
    was stored without parameters is thus answered with rounded zeros. *)
Theorem best_parameters_default_to_zero (st : Storage) (bean_id : string)
    (user_id : option string) (method : string) (r : BestResponse) :
  get_best_parameters (Reachable st) bean_id user_id method = Ok r ->
  exists bt,
    study_best_trial st (get_study_name bean_id user_id method) = Ok bt
    /\ trials st (get_study_name bean_id user_id method) <> []
    /\ bi_trial_number (br_best_trial r) = number bt
    /\ bi_parameters (br_best_trial r)
       = map (fun key => (key, round1 (params_get (params bt) key 0)))
           ["grind"; "dose"; "time"]
    /\ (params bt = [] ->
        bi_parameters (br_best_trial r)
        = [("grind", round1 0); ("dose", round1 0); ("time", round1 0)]).
Proof.
  intros Hr.
  unfold get_best_parameters, get_best_parameters_body in Hr; simpl in Hr.
  set (name := get_study_name bean_id user_id method) in *.
  destruct (load_study st name) as [study|e] eqn:Hload; simpl in Hr.
  - unfold load_study in Hload. destruct (st !! name); [|discriminate].
    injection Hload as <-.
    destruct (length (trials st name) =? 0)%nat eqn:Hlen; [discriminate|].
    destruct (study_best_trial st name) as [bt|e]; simpl in Hr;
      [|destruct e; discriminate].
    injection Hr as <-. exists bt. simpl.
    repeat split.
    + intros Hnil. rewrite Hnil in Hlen. discriminate.
    + intros ->. reflexivity.
  - destruct e; discriminate.
Qed.

(** An exception of [study.best_trial] on a study with trials reaches the
    caller of the best-parameters endpoint as a 500 error. *)
Lemma best_parameters_fail_with_library (st : Storage) (bean_id : string)
    (user_id : option string) (method : string) (ts : list FrozenTrial)
    (msg : string) :
  st !! get_study_name bean_id user_id method = Some ts ->
  ts <> [] ->
  study_best_trial st (get_study_name bean_id user_id method)
  = Raise (ValueError msg) ->
  get_best_parameters (Reachable st) bean_id user_id method
  = Raise (HTTPException 500 ("Failed to get best parameters: " ++ msg)).
Proof.
  intros Hts Hne Hbest.
  unfold get_best_parameters, get_best_parameters_body; simpl.
  rewrite (DialInFacts.load_study_found _ _ _ Hts).
  unfold trials. rewrite Hts; simpl.
  destruct ts as [|t ts']; [contradiction|]. simpl.
  now rewrite Hbest.
Qed.

End Handlers.

Lemma user_and_anonymous_names_differ_witness :
  "u1" <> ""
  /\ get_study_name "b1" (Some "u1") "espresso"
     <> get_study_name "b1" None "espresso".
Proof.
  split; [discriminate|].
  apply (user_and_anonymous_names_differ "b1" "u1" "espresso" "b1" "espresso").
  discriminate.
Defined.

Lemma study_name_separates_beans_and_methods_witness :
  has_underscore "espresso" = false
  /\ ("b1" = "b1" /\ "espresso" = "espresso")
  /\ validate_method "espresso" = Ok "espresso".
Proof.
  split; [reflexivity|]. split; [|reflexivity].
  apply (proj1 (study_name_separates_beans_and_methods
                  None "b1" "b1" "espresso" "espresso"));
    reflexivity.
Defined.

Lemma study_names_collide_witness :
  "b2" <> "b1_bean_b2"
  /\ get_study_name "b2" (Some "u1_bean_b1") "espresso"
     = get_study_name "b1_bean_b2" (Some "u1") "espresso".
Proof.
  apply (study_names_collide "u1" "b1" "b2" "espresso"). discriminate.
Defined.

Lemma report_unknown_trial_witness :
  sample_storage !! "bean_b1_espresso" = Some [trial0; trial1]
  /\ report_result (Reachable sample_storage) report7
     = (Raise (HTTPException 404
                 "Trial 7 not found in study bean_b1_espresso"),
        Reachable sample_storage).
Proof.
  split; [vm_compute; reflexivity|].
  apply (report_unknown_trial sample_storage report7 [trial0; trial1]).
  - vm_compute; reflexivity.
  - repeat constructor; discriminate.
Defined.

Lemma report_unknown_study_witness :
  sample_storage !! "bean_b2_espresso" = None
  /\ exists detail,
       report_result (Reachable sample_storage) report_b2
       = (Raise (HTTPException 500 detail), Reachable sample_storage).
Proof.
  split; [vm_compute; reflexivity|].
  eexists.
  apply (report_unknown_study sample_storage report_b2).
  vm_compute; reflexivity.
Defined.

Lemma status_recent_trials_witness :
  exists r best recent,
    get_optimization_status (Reachable sample_storage) "b1" None "espresso"
    = Ok r
    /\ r = Active "bean_b1_espresso" 2 best recent
    /\ (length recent <= 5)%nat.
Proof.
  destruct (get_optimization_status (Reachable sample_storage) "b1" None
              "espresso") as [r|] eqn:E; [|vm_compute in E; discriminate].
  destruct (status_recent_trials sample_storage "b1" None "espresso"
              [trial0; trial1] r)
    as (best & recent & Hr & Hlen & _);
    [vm_compute; reflexivity | exact E |].
  exists r, best, recent. auto.
Defined.

Lemma best_parameters_default_to_zero_witness :
  exists r,
    get_best_parameters (Reachable sample_storage) "b1" None "espresso" = Ok r
    /\ bi_trial_number (br_best_trial r) = 0%Z
    /\ bi_parameters (br_best_trial r)
       = [("grind", round1 0); ("dose", round1 0); ("time", round1 0)].
Proof.
  destruct (get_best_parameters (Reachable sample_storage) "b1" None
              "espresso") as [r|] eqn:E; [|vm_compute in E; discriminate].
  destruct (best_parameters_default_to_zero sample_storage "b1" None
              "espresso" r E) as (bt & Hbt & _ & Hn & _ & Hz).
  vm_compute in Hbt. injection Hbt as <-.
  exists r. split; [reflexivity|]. split; [exact Hn | exact (Hz eq_refl)].
Defined.

Lemma best_parameters_fail_with_library_witness :
  trials running_storage "bean_b1_espresso" = [trial1]
  /\ get_best_parameters (Reachable running_storage) "b1" None "espresso"
     = Raise (HTTPException 500
                "Failed to get best parameters: No trials are completed yet.").
Proof.
  split; [vm_compute; reflexivity|].
  apply (best_parameters_fail_with_library running_storage "b1" None
           "espresso" [trial1] "No trials are completed yet.").
  - vm_compute; reflexivity.
  - discriminate.
  - vm_compute; reflexivity.
Defined.

Lemma status_fails_with_library_witness :
  trials running_storage "bean_b1_espresso" = [trial1]
  /\ get_optimization_status (Reachable running_storage) "b1" None "espresso"
     = Raise (HTTPException 500
                "Failed to get status: No trials are completed yet.").
Proof.
  split; [vm_compute; reflexivity|].
  apply (DialInFacts.status_fails_with_library running_storage "b1" None
           "espresso" [trial1] "No trials are completed yet.").
  - vm_compute; reflexivity.
  - discriminate.
  - vm_compute; reflexivity.
Defined.

End DialInMore.

(** * Properties of the next-shot endpoint *)

Module DialInAskFacts.

Import DialIn DialInAsk Reference Reference2.

Section Facts.
Context `{S : OptunaSession}.

Lemma record_feedback_skipped (name : string) (data : ShotData) :
  taste_score data = None \/ grind data = None ->
  record_feedback name data = record_feedback name (without_feedback data).
Proof.
  intros H. unfold record_feedback. simpl.
  destruct H as [-> | ->]; [reflexivity|].
  now destruct (taste_score data).
Qed.

(** Feedback is recorded only when the request carries both a taste score
    and a grind setting: a request that lacks one of them is answered, and
    leaves the database, exactly as the same request without any feedback
    field. *)
Theorem feedback_needs_score_and_grind (db : SessionDb) (data : ShotData) :
  taste_score data = None \/ grind data = None ->
  recommend_next_shot db data = recommend_next_shot db (without_feedback data).
Proof.
  intros H. destruct db as [err|s].
  - reflexivity.
  - unfold recommend_next_shot, recommend_next_shot_body. simpl.
    now rewrite (record_feedback_skipped _ data H).
Qed.

(** When Optuna cannot create or load the study, the request fails with a
    500 that names the study creation, whatever the exception was, and no
    trial is asked: the database is the one [create_study] left. *)
Theorem study_creation_failure (s s' : session) (data : ShotData) (e : exn) :
  create_study s (get_study_name (bean_id data) (user_id data) (method data))
  = (Raise e, s') ->
  recommend_next_shot (Up s) data
  = (Raise (HTTPException 500 ("Failed to create study: " ++ str_exn e)),
     Up s').
Proof.
  intros Hc. unfold recommend_next_shot, recommend_next_shot_body, bindM,
    get_or_create_study.
  now rewrite Hc.
Qed.

(** A request is not undone when it fails late.  Without feedback: once the
    study is there, a trial is asked and its three values are suggested, an
    exception of [study.best_trial] makes the request fail with 500, and the
    database keeps the asked trial. *)
Theorem failed_request_keeps_asked_trial (s s1 s2 s3 s4 s5 : session)
    (data : ShotData) (trial : Trial) (g d t : Q) (msg : string) :
  let name := get_study_name (bean_id data) (user_id data) (method data) in
  taste_score data = None \/ grind data = None ->
  create_study s name = (Ok tt, s1) ->
  ask s1 name = (Ok trial, s2) ->
  suggest_float s2 trial "grind" 1 25 0.5 = (Ok g, s3) ->
  suggest_float s3 trial "dose" 14 22 0.1 = (Ok d, s4) ->
  suggest_float s4 trial "time" 20 40 1 = (Ok t, s5) ->
  session_trials s5 name <> [] ->
  session_best_trial s5 name = Raise (ValueError msg) ->
  recommend_next_shot (Up s) data
  = (Raise (HTTPException 500 ("Optimization failed: " ++ msg)), Up s5).
Proof.
  intros name Hfb Hc Ha Hg Hd Ht Hne Hbest.
  unfold recommend_next_shot, recommend_next_shot_body.
  rewrite (record_feedback_skipped _ data Hfb).
  unfold bindM, get_or_create_study, record_feedback, current_best, ret.
  simpl.
  fold name. rewrite Hc, Ha, Hg, Hd, Ht, Hbest.
  destruct (session_trials s5 name); [contradiction|]. reflexivity.
Qed.

End Facts.

Lemma feedback_needs_score_and_grind_witness :
  grind score_only_request = None
  /\ recommend_next_shot empty_db score_only_request
     = recommend_next_shot empty_db first_request.
Proof.
  split; [reflexivity|].
  apply (feedback_needs_score_and_grind empty_db score_only_request).
  now right.
Defined.

Lemma study_creation_failure_witness :
  recommend_next_shot failing_db first_request
  = (Raise (HTTPException 500 "Failed to create study: connection lost"),
     failing_db).
Proof.
  apply (@study_creation_failure FailingSession empty_session empty_session
           first_request (Exception "connection lost")).
  reflexivity.
Defined.

Lemma failed_request_keeps_asked_trial_witness :
  exists s5 : MemSession,
    recommend_next_shot empty_db first_request
    = (Raise (HTTPException 500
                "Optimization failed: No trials are completed yet."),
       @Up InMemorySession s5)
    /\ length (DialIn.trials (ms_studies s5) "bean_b1_espresso") = 1%nat.
Proof.
  eexists. split.
  - eapply (@failed_request_keeps_asked_trial InMemorySession empty_session);
      try (vm_compute; reflexivity); [now left | vm_compute; discriminate].
  - vm_compute. reflexivity.
Defined.

End DialInAskFacts.

(** * Further properties of the clustering recommender *)

Module RecommenderMore.

Import Recommender Spec Reference Reference2 RecommenderFacts.
Local Open Scope Q_scope.

(** ** Selections *)

Lemma mask_select_length {A} (mask : list bool) (l : list A) :
  (length (mask_select mask l) <= length l)%nat.
Proof.
  revert l. induction mask as [|b mask IH]; intros [|x l]; simpl; try lia.
  destruct b; simpl; specialize (IH l); lia.
Qed.

Lemma mask_select_count {A B} (f : A -> bool) (l : list A) (idx : list B) :
  length l = length idx ->
  length (mask_select (map f l) idx) = length (List.filter f l).
Proof.
  revert idx. induction l as [|x l IH]; intros [|i idx] H; simpl in *;
    try discriminate; [reflexivity|].
  injection H as H. destruct (f x); simpl; now rewrite IH.
Qed.

Lemma quality_shots_cases (cs : DataFrame) :
  quality_shots cs = cs \/ exists mask, quality_shots cs = df_select mask cs.
Proof.
  unfold quality_shots.
  destruct (len (quality_at_least 7 cs) =? 0)%nat eqn:E7.
  - destruct (len (quality_at_least 6 cs) =? 0)%nat; [now left|].
    right. eexists. reflexivity.
  - rewrite E7. right. eexists. reflexivity.
Qed.

Lemma quality_shots_len (cs : DataFrame) :
  (len (quality_shots cs) <= len cs)%nat.
Proof.
  destruct (quality_shots_cases cs) as [-> | [mask ->]]; [lia|].
  apply mask_select_length.
Qed.

Section Facts.
Context `{L : SciLib}.

(** A returned recommendation never counts more quality shots than the
    cluster has shots. *)
Theorem quality_count_within_cluster (self : ClusteringRecommender)
    (target_profile : list (string * Q)) (constraints : option Constraints)
    (current_params : option (list (string * Q))) (r : Recommendation) :
  recommend self target_profile constraints current_params = Ok r ->
  (qualityShotsCount r <= clusterSize r)%nat.
Proof.
  intros Hrec.
  destruct (recommend_steps _ _ _ _ _ Hrec)
    as (hist & ts & cid & cs & ps & _ & _ & _ & _ & _ & _ & _ & _ & _
        & -> & ->).
  apply quality_shots_len.
Qed.

Lemma clamp_is_finite (x : fnum) :
  exists c, py_max (Some 0) (py_min (Some 1) x) = Some c /\ 0 <= c /\ c <= 1.
Proof.
  destruct x as [v|].
  - rewrite py_min_finite, py_max_finite. eexists. split; [reflexivity|].
    apply clamp01_bounds.
  - exists 1. split; [reflexivity|]. split; discriminate.
Qed.

(** The confidence of a returned recommendation is always a number between
    0 and 1, also when the deviation of the cluster's qualities is NaN. *)
Theorem confidence_in_unit_interval (self : ClusteringRecommender)
    (target_profile : list (string * Q)) (constraints : option Constraints)
    (current_params : option (list (string * Q))) (r : Recommendation) :
  recommend self target_profile constraints current_params = Ok r ->
  exists c, confidence r = Some c /\ 0 <= c /\ c <= 1.
Proof.
  intros Hrec.
  destruct (recommend_steps _ _ _ _ _ Hrec)
    as (hist & ts & cid & cs & ps & _ & _ & _ & _ & _ & _ & Hconf & _).
  unfold _calculate_confidence in Hconf.
  destruct (cluster cs) as [[|label rest]|]; try discriminate.
  destruct (nth_error _ label) as [center|]; [|discriminate].
  injection Hconf as <-. apply clamp_is_finite.
Qed.

(** ** The assigned cluster *)

Lemma filter_eqb_repeat (cid : nat) (labels : list nat) :
  List.filter (Nat.eqb cid) labels
  = repeat cid (count_occ Nat.eq_dec labels cid).
Proof.
  induction labels as [|x labels IH]; simpl; [reflexivity|].
  destruct (Nat.eqb_spec cid x) as [->|Hne].
  - destruct (Nat.eq_dec x x); [simpl; now rewrite IH | contradiction].
  - destruct (Nat.eq_dec x cid); [congruence | exact IH].
Qed.

(** The cluster shots of a recommendation are the historical shots that
    carry the label of the assigned cluster: all their labels are that
    label, and in a frame with one label per row their number is the number
    of rows with that label. *)
Theorem cluster_shots_carry_the_label (hist : DataFrame) (cluster_id : nat)
    (cluster_shots : DataFrame) :
  cluster_select hist cluster_id = Ok cluster_shots ->
  exists labels,
    cluster hist = Some labels
    /\ cluster cluster_shots
       = Some (repeat cluster_id (count_occ Nat.eq_dec labels cluster_id))
    /\ (length labels = length (index hist) ->
        len cluster_shots = count_occ Nat.eq_dec labels cluster_id).
Proof.
  unfold cluster_select.
  destruct (cluster hist) as [labels|] eqn:E; [|discriminate].
  intros [= <-]. exists labels. split; [reflexivity|]. split.
  - simpl. rewrite E. simpl.
    now rewrite mask_select_map, filter_eqb_repeat.
  - intros Hlen. unfold len. simpl.
    rewrite (mask_select_count _ _ _ Hlen), filter_eqb_repeat.
    apply repeat_length.
Qed.

End Facts.

Lemma quality_count_within_cluster_witness :
  exists r,
    recommend recommender12 profile_8537 None None = Ok r
    /\ (qualityShotsCount r <= clusterSize r)%nat.
Proof.
  assert (Hrec : recommend recommender12 profile_8537 None None
                 = Ok recommendation_8537) by (vm_compute; reflexivity).
  exists recommendation_8537. split; [exact Hrec|].
  exact (quality_count_within_cluster recommender12 profile_8537 None None
           _ Hrec).
Defined.

Lemma confidence_in_unit_interval_witness :
  exists r c,
    recommend recommender12 profile_8537 None None = Ok r
    /\ confidence r = Some c /\ 0 <= c /\ c <= 1.
Proof.
  assert (Hrec : recommend recommender12 profile_8537 None None
                 = Ok recommendation_8537) by (vm_compute; reflexivity).
  destruct (confidence_in_unit_interval recommender12 profile_8537 None None
              _ Hrec) as (c & Hc & H0 & H1).
  exists recommendation_8537, c. auto.
Defined.

Lemma cluster_shots_carry_the_label_witness :
  let hist := set_cluster shots12 (repeat 0%nat 12) in
  historical_shots recommender12 = Some hist
  /\ exists cluster_shots,
       cluster_select hist 0 = Ok cluster_shots
       /\ cluster cluster_shots = Some (repeat 0%nat 12)
       /\ len cluster_shots = 12%nat.
Proof.
  intros hist. split; [vm_compute; reflexivity|].
  destruct (cluster_select hist 0) as [cs|] eqn:Ec;
    [|vm_compute in Ec; discriminate].
  destruct (cluster_shots_carry_the_label hist 0%nat cs Ec)
    as (labels & Hl & Hc & Hlen).
  assert (El : labels = repeat 0%nat 12)
    by (vm_compute in Hl; injection Hl as <-; reflexivity).
  subst labels. exists cs. split; [reflexivity|].
  split; [rewrite Hc; reflexivity | rewrite (Hlen eq_refl); reflexivity].
Defined.

(** ** Constraints *)

Lemma set_key_keys {A} (d : list (string * A)) (key : string) (v : A) :
  map fst (set_key d key v) = map fst d.
Proof.
  induction d as [|[k x] d IH]; simpl; [reflexivity|].
  destruct (String.eqb_spec k key) as [->|]; simpl; [reflexivity|].
  now rewrite IH.
Qed.

Lemma lookup_set_key_same {A} (d : list (string * A)) (key : string)
    (x v : A) :
  lookup_key d key = Some x -> lookup_key (set_key d key v) key = Some v.
Proof.
  induction d as [|[k y] d IH]; simpl; [discriminate|].
  destruct (String.eqb k key) eqn:E; simpl; rewrite E; auto.
Qed.

Lemma lookup_set_key_other {A} (d : list (string * A)) (key key' : string)
    (v : A) :
  key <> key' -> lookup_key (set_key d key v) key' = lookup_key d key'.
Proof.
  intros Hne. induction d as [|[k y] d IH]; simpl; [reflexivity|].
  destruct (String.eqb_spec k key) as [->|]; simpl.
  - destruct (String.eqb_spec key key'); [contradiction | reflexivity].
  - now rewrite IH.
Qed.

Lemma lookup_key_not_in {A} (d : list (string * A)) (key : string) :
  ~ In key (map fst d) -> lookup_key d key = None.
Proof.
  induction d as [|[k y] d IH]; simpl; [reflexivity|]. intros Hnot.
  destruct (String.eqb_spec k key) as [->|]; [tauto|]. apply IH. tauto.
Qed.

Lemma clip_ranges_keys (ranges : list (string * (Q * Q)))
    (ps ps' : list (string * pvalue)) :
  clip_ranges ranges ps = Ok ps' -> map fst ps' = map fst ps.
Proof.
  revert ps. induction ranges as [|[param [lo hi]] rest IH]; intros ps H;
    simpl in H.
  - now injection H as <-.
  - destruct (lookup_key ps param) as [v|]; [|now apply IH].
    destruct (np_clip v lo hi) as [v'|]; simpl in H; [|discriminate].
    rewrite (IH _ H). apply set_key_keys.
Qed.

Lemma clip_ranges_lookup (ranges : list (string * (Q * Q)))
    (ps ps' : list (string * pvalue)) (p : string) :
  List.NoDup (map fst ranges) ->
  clip_ranges ranges ps = Ok ps' ->
  match lookup_key ranges p, lookup_key ps p with
  | Some (lo, hi), Some (PFloat (Some x)) =>
      lookup_key ps' p = Some (PFloat (Some (Qmin (Qmax x lo) hi)))
  | Some _, _ => True
  | None, _ => lookup_key ps' p = lookup_key ps p
  end.
Proof.
  revert ps. induction ranges as [|[param [lo hi]] rest IH];
    intros ps Hnd H; simpl in H.
  - injection H as <-. reflexivity.
  - inversion Hnd as [|? ? Hnotin Hnd']; subst. simpl.
    destruct (String.eqb_spec param p) as [->|Hne].
    + destruct (lookup_key ps p) as [v|] eqn:Hv; [|exact I].
      destruct v as [[x|]|o]; try exact I.
      simpl in H. specialize (IH _ Hnd' H).
      rewrite (lookup_key_not_in rest p Hnotin) in IH.
      rewrite IH. now apply (lookup_set_key_same ps p (PFloat (Some x))).
    + destruct (lookup_key ps param) as [v|] eqn:Hv.
      * destruct (np_clip v lo hi) as [v'|]; simpl in H; [|discriminate].
        specialize (IH _ Hnd' H).
        now rewrite (lookup_set_key_other ps param p v' Hne) in IH.
      * now apply IH.
Qed.

Section Constraints.
Context `{L : SciLib}.

(** What [_apply_constraints] does to the aggregated parameters: it keeps
    the names and their order; a number under a range [(lo, hi)] becomes
    min(max(x, lo), hi), which lies in the range when lo <= hi and is x when
    x already does; a parameter without a range keeps its value; and the
    names under [fixedParams] have no effect at all. *)
Theorem apply_constraints_clamps (params ps' : list (string * pvalue))
    (fixed fixed' : option (list string))
    (ranges : list (string * (Q * Q))) :
  List.NoDup (map fst ranges) ->
  _apply_constraints params
    {| fixedParams := fixed; paramRanges := Some ranges |} = Ok ps' ->
  map fst ps' = map fst params
  /\ (forall p, lookup_key ranges p = None ->
        lookup_key ps' p = lookup_key params p)
  /\ (forall p lo hi x,
        lookup_key ranges p = Some (lo, hi) ->
        lookup_key params p = Some (PFloat (Some x)) ->
        exists y,
          lookup_key ps' p = Some (PFloat (Some y))
          /\ y = Qmin (Qmax x lo) hi
          /\ (lo <= hi -> lo <= y /\ y <= hi)
          /\ (lo <= x -> x <= hi -> y == x))
  /\ _apply_constraints params
       {| fixedParams := fixed'; paramRanges := Some ranges |} = Ok ps'.
Proof.
  unfold _apply_constraints. simpl. intros Hnd H.
  split; [now apply (clip_ranges_keys ranges)|]. split; [|split].
  - intros p Hp. pose proof (clip_ranges_lookup ranges params ps' p Hnd H) as Hl.
    now rewrite Hp in Hl.
  - intros p lo hi x Hp Hx.
    pose proof (clip_ranges_lookup ranges params ps' p Hnd H) as Hl.
    rewrite Hp, Hx in Hl. eexists. split; [exact Hl|].
    split; [reflexivity|]. split.
    + intros Hle. split.
      * apply Q.min_glb; [apply Q.le_max_r | exact Hle].
      * apply Q.le_min_r.
    + intros Hlo Hhi. rewrite Q.max_l by exact Hlo. now rewrite Q.min_l.
  - exact H.
Qed.

(** ** Explanations *)

Lemma explain_one_shape (name : string) (threshold : Q)
    (up down : Q -> Explanation) (recommended : list (string * pvalue))
    (current : list (string * Q)) (ex : list (string * Explanation)) :
  explain_one name threshold up down recommended current = Ok ex ->
  ex = [] \/ exists e, ex = [(name, e)].
Proof.
  unfold explain_one.
  destruct (lookup_key recommended name) as [v|]; [|intros [= <-]; now left].
  destruct (lookup_key current name) as [cur|]; [|intros [= <-]; now left].
  destruct (change v cur) as [[c|]|]; simpl; try discriminate;
    [|intros [= <-]; now left].
  destruct (Qlt_b threshold (Qabs c)); [|intros [= <-]; now left].
  destruct (Qlt_b 0 c); intros [= <-]; right; eauto.
Qed.

Lemma explain_one_number (name : string) (threshold : Q)
    (up down : Q -> Explanation) (recommended : list (string * pvalue))
    (current : list (string * Q)) (x cur : Q) :
  lookup_key recommended name = Some (PFloat (Some x)) ->
  lookup_key current name = Some cur ->
  explain_one name threshold up down recommended current
  = Ok (if Qlt_b threshold (Qabs (x - cur))
        then if Qlt_b 0 (x - cur)
             then [(name, up (x - cur))] else [(name, down (x - cur))]
        else []).
Proof.
  intros Hr Hc. unfold explain_one, change. rewrite Hr, Hc.
  cbn [bind f_lift2].
  destruct (Qlt_b threshold (Qabs (x - cur))); [|reflexivity].
  now destruct (Qlt_b 0 (x - cur)).
Qed.

(** Explanations exist only for [grindSize] and [temperature], and only when
    current parameters were given. *)
Theorem explanations_only_for_grind_and_temperature
    (recommended : list (string * pvalue))
    (current : option (list (string * Q)))
    (expected : list (string * fnum)) (target : list (string * Q))
    (ex : list (string * Explanation)) :
  _generate_explanation recommended current expected target = Ok ex ->
  (forall k e, In (k, e) ex -> k = "grindSize"%string \/ k = "temperature"%string)
  /\ (current = None \/ current = Some [] -> ex = []).
Proof.
  unfold _generate_explanation. intros H. split.
  - destruct current as [[|kv cur]|]; try (injection H as <-; contradiction).
    apply bind_ok in H as (g & Hg & H). apply bind_ok in H as (t & Ht & H).
    injection H as <-. intros k e Hin. apply in_app_or in Hin.
    destruct Hin as [Hin | Hin].
    + destruct (explain_one_shape _ _ _ _ _ _ _ Hg) as [-> | [e' ->]];
        [destruct Hin|].
      destruct Hin as [[= <- _] | []]. now left.
    + destruct (explain_one_shape _ _ _ _ _ _ _ Ht) as [-> | [e' ->]];
        [destruct Hin|].
      destruct Hin as [[= <- _] | []]. now right.
  - intros [-> | ->]; now injection H as <-.
Qed.

(** The direction of an explanation.  When the grind is explained, the
    recommended grind size differs from the current one: the explanation is
    the "finer" one exactly when the recommended number is the larger, the
    "coarser" one when it is the smaller.  Equal values are never explained.
    The same holds of the temperature with "higher" and "lower". *)
Theorem explanation_direction (recommended : list (string * pvalue))
    (current : list (string * Q)) (expected : list (string * fnum))
    (target : list (string * Q)) (ex : list (string * Explanation)) :
  _generate_explanation recommended (Some current) expected target = Ok ex ->
  (forall x cur e,
     lookup_key recommended "grindSize" = Some (PFloat (Some x)) ->
     lookup_key current "grindSize" = Some cur ->
     lookup_key ex "grindSize" = Some e ->
     (cur < x /\ exists c, e = FinerGrind c)
     \/ (x < cur /\ exists c, e = CoarserGrind c))
  /\ (forall x cur e,
        lookup_key recommended "temperature" = Some (PFloat (Some x)) ->
        lookup_key current "temperature" = Some cur ->
        lookup_key ex "temperature" = Some e ->
        (cur < x /\ exists c, e = HigherTemperature c)
        \/ (x < cur /\ exists c, e = LowerTemperature c)).
Proof.
  intros H. unfold _generate_explanation in H.
  destruct current as [|kv rest]; [injection H as <-; split; discriminate|].
  apply bind_ok in H as (g & Hg & H). apply bind_ok in H as (t & Ht & H).
  injection H as <-.
  assert (Hdir : forall name threshold up down l x cur e,
             explain_one name threshold up down recommended (kv :: rest)
             = Ok l ->
             0 <= threshold ->
             lookup_key recommended name = Some (PFloat (Some x)) ->
             lookup_key (kv :: rest) name = Some cur ->
             lookup_key l name = Some e ->
             (cur < x /\ exists c, e = up c)
             \/ (x < cur /\ exists c, e = down c)).
  { intros name threshold up down l x cur e Hl Hth Hx Hc He.
    rewrite (explain_one_number _ _ _ _ _ _ x cur Hx Hc) in Hl.
    set (d := x - cur) in *.
    destruct (Qlt_b threshold (Qabs d)) eqn:Eabs;
      [|injection Hl as <-; discriminate].
    apply Qlt_b_spec in Eabs.
    destruct (Qlt_b 0 d) eqn:Epos; injection Hl as <-;
      cbn [lookup_key] in He; rewrite String.eqb_refl in He;
      injection He as <-.
    - apply Qlt_b_spec in Epos. left. split; [unfold d in Epos; lra | eauto].
    - right. split; [|eauto].
      assert (Hle : d <= 0).
      { apply Qnot_lt_le. intros Hlt. apply Qlt_b_spec in Hlt. congruence. }
      destruct (Qeq_dec d 0) as [Hz | Hnz].
      + rewrite Hz in Eabs. change (Qabs 0) with 0 in Eabs. lra.
      + unfold d in Hle, Hnz. lra. }
  assert (Hother : forall name threshold up down l other,
             explain_one name threshold up down recommended (kv :: rest)
             = Ok l ->
             String.eqb name other = false -> lookup_key l other = None).
  { intros name threshold up down l other Hl Hne.
    destruct (explain_one_shape _ _ _ _ _ _ _ Hl) as [-> | [e ->]];
      [reflexivity|].
    cbn [lookup_key]. now rewrite Hne. }
  split.
  - intros x cur e Hx Hc He. rewrite lookup_key_app in He.
    destruct (lookup_key g "grindSize") as [e'|] eqn:Eg.
    + injection He as <-.
      apply (Hdir _ _ _ _ _ x cur e' Hg); [discriminate | assumption..].
    + rewrite (Hother _ _ _ _ _ "grindSize"%string Ht eq_refl) in He.
      discriminate.
  - intros x cur e Hx Hc He. rewrite lookup_key_app in He.
    rewrite (Hother _ _ _ _ _ "temperature"%string Hg eq_refl) in He.
    apply (Hdir _ _ _ _ _ x cur e Ht); [discriminate | assumption..].
Qed.

(** ** Fitting *)

(** Before [fit], [recommend] raises the "not fitted" error.  After a [fit]
    that raised on a frame without a cluster column the recommender passes
    this test (the frame has been stored) and still cannot recommend: every
    call raises. *)
Theorem failed_fit_cannot_recommend (self : ClusteringRecommender)
    (shots_df : DataFrame) (e : exn) (n : nat)
    (target_profile : list (string * Q)) (constraints : option Constraints)
    (current_params : option (list (string * Q))) :
  recommend (init n) target_profile constraints current_params
  = Raise (ValueError "Model not fitted. Call fit() first.")
  /\ (fst (fit self shots_df) = Raise e ->
      cluster shots_df = None ->
      historical_shots (snd (fit self shots_df)) = Some shots_df
      /\ is_ok (recommend (snd (fit self shots_df)) target_profile constraints
                  current_params) = false).
Proof.
  split; [reflexivity|]. intros Hfit Hcl. unfold fit in *.
  assert (Hstuck : forall r : ClusteringRecommender,
             historical_shots r = Some shots_df ->
             is_ok (recommend r target_profile constraints current_params)
             = false).
  { intros r Hr. unfold recommend. rewrite Hr.
    destruct (transform _ _) as [ts|]; [|reflexivity]. cbn [bind].
    destruct (predict _ _) as [cid|]; [|reflexivity]. cbn [bind].
    unfold cluster_select. now rewrite Hcl. }
  destruct (fit_transform _ _) as [[sc scaled]|e1].
  - destruct (kmeans_fit _ _) as [km|e2]; simpl in *; [discriminate|].
    split; [reflexivity|]. now apply Hstuck.
  - simpl in *. split; [reflexivity|]. now apply Hstuck.
Qed.

End Constraints.

Lemma apply_constraints_clamps_witness :
  exists ps',
    _apply_constraints recommended_params
      {| fixedParams := None; paramRanges := Some grind_range |} = Ok ps'
    /\ lookup_key ps' "grindSize" = Some (PFloat (Some 12))
    /\ lookup_key ps' "temperature" = Some (PFloat (Some 93)).
Proof.
  destruct (_apply_constraints recommended_params
              {| fixedParams := None; paramRanges := Some grind_range |})
    as [ps'|] eqn:E; [|vm_compute in E; discriminate].
  assert (Hnd : List.NoDup (map fst grind_range))
    by (repeat constructor; simpl; tauto).
  destruct (apply_constraints_clamps recommended_params ps' None None
              grind_range Hnd E) as (_ & Hother & Hclamp & _).
  destruct (Hclamp "grindSize"%string 10 12 13 eq_refl eq_refl)
    as (y & Hy & -> & _).
  exists ps'. split; [reflexivity|]. split; [exact Hy|].
  exact (Hother "temperature"%string eq_refl).
Defined.

Lemma explanations_only_for_grind_and_temperature_witness :
  exists ex,
    _generate_explanation recommended_params (Some current_params_11) [] []
    = Ok ex
    /\ forall k e, In (k, e) ex ->
         k = "grindSize"%string \/ k = "temperature"%string.
Proof.
  destruct (_generate_explanation recommended_params (Some current_params_11)
              [] []) as [ex|] eqn:E; [|vm_compute in E; discriminate].
  exists ex. split; [reflexivity|].
  exact (proj1 (explanations_only_for_grind_and_temperature
                  recommended_params (Some current_params_11) [] [] ex E)).
Defined.

Lemma explanation_direction_witness :
  exists ex c,
    _generate_explanation recommended_params (Some current_params_11) [] []
    = Ok ex
    /\ lookup_key ex "grindSize" = Some (FinerGrind c)
    /\ 11 < 13.
Proof.
  destruct (_generate_explanation recommended_params (Some current_params_11)
              [] []) as [ex|] eqn:E; [|vm_compute in E; discriminate].
  destruct (lookup_key ex "grindSize") as [e|] eqn:Ee;
    [|exfalso; vm_compute in E; injection E as <-; discriminate].
  destruct (proj1 (explanation_direction recommended_params current_params_11
                     [] [] ex E) 13 11 e eq_refl eq_refl Ee)
    as [[Hlt [c ->]] | [Hlt _]].
  - exists ex, c. split; [reflexivity|]. split; [exact Ee | exact Hlt].
  - exfalso. revert Hlt. apply Qle_not_lt. discriminate.
Defined.

Lemma failed_fit_cannot_recommend_witness :
  fst (fit (init 5) shots3)
  = Raise (ValueError "n_samples should be >= n_clusters")
  /\ historical_shots (snd (fit (init 5) shots3)) = Some shots3
  /\ is_ok (recommend (snd (fit (init 5) shots3)) profile_8537 None None)
     = false.
Proof.
  assert (E : fst (fit (init 5) shots3)
              = Raise (ValueError "n_samples should be >= n_clusters"))
    by (vm_compute; reflexivity).
  split; [exact E|].
  exact (proj2 (failed_fit_cannot_recommend (init 5) shots3 _ 5%nat
                  profile_8537 None None) E eq_refl).
Defined.

End RecommenderMore.

(** * Further properties of the recommendation service *)

Module MlServiceMore.

Import Recommender MlService Spec Reference Reference2 RecommenderFacts
  MlServiceFacts.
Local Open Scope Q_scope.

Lemma check_values_accepts (tp : list (string * json))
    (profile : list (string * Q)) :
  check_values tp = inr profile ->
  map fst profile = map fst tp
  /\ Forall (fun kv => valid_taste_value (snd kv) = true) tp.
Proof.
  revert profile. induction tp as [|[k v] tp IH]; intros profile H;
    simpl in H.
  - injection H as <-. split; constructor.
  - destruct (number_of v) as [q|] eqn:Hn; [|discriminate].
    destruct (valid_taste_value v) eqn:Hv; [|discriminate].
    destruct (check_values tp) as [d|l]; [discriminate|].
    injection H as <-. destruct (IH l eq_refl) as (Hk & Hr).
    split; simpl; [now rewrite Hk | constructor; assumption].
Qed.

Section Facts.
Context `{L : SciLib}.

(** The endpoint calls the recommender at most once, and only for a request
    that passed the whole validation: its target profile holds the four
    taste dimensions and every value of it passed the check of the loop (it
    is an int or a float, and neither [value < 1] nor [value > 10] holds).
    The call receives the keys of that profile in their order, the
    constraints of the request unchanged, and the current parameters, or
    [None] when they are absent or empty. *)
Theorem recommender_sees_only_valid_profiles
    (recommender : option ClusteringRecommender)
    (data : option RecommendData) (call : RecommendCall) :
  In call (snd (recommend recommender data)) ->
  snd (recommend recommender data) = [call]
  /\ exists d tp,
       data = Some d /\ targetProfile d = Some tp
       /\ (forall dim, In dim required_taste_dims -> lookup_key tp dim <> None)
       /\ Forall (fun kv => valid_taste_value (snd kv) = true) tp
       /\ map fst (call_target_profile call) = map fst tp
       /\ call_constraints call = constraints d
       /\ call_current_params call
          = match currentParams d with
            | Some [] | None => None
            | Some current => Some current
            end.
Proof.
  unfold recommend.
  destruct recommender as [rec|]; [|intros []].
  destruct data as [d|]; [|intros []].
  destruct (empty_body d); [intros []|].
  destruct (targetProfile d) as [[|kv tp]|] eqn:Htp; try (intros []).
  destruct (missing_dims (kv :: tp)) eqn:Hmiss; [|intros []].
  destruct (check_values (kv :: tp)) as [dim|profile] eqn:Hcheck;
    [intros []|].
  destruct (check_values_accepts _ _ Hcheck) as (Hk & Hvalid).
  destruct (Recommender.recommend rec profile _ _); cbn [snd];
    intros [<- | []]; (split; [reflexivity|]); exists d, (kv :: tp);
    cbn [call_target_profile call_constraints call_current_params].
  all: split; [reflexivity|]; split; [exact Htp|].
  all: split; [exact (proj1 (missing_dims_nil (kv :: tp)) Hmiss)|].
  all: split; [exact Hvalid|]; split; [exact Hk|]; split; [reflexivity|].
  all: now destruct (currentParams d) as [[|? ?]|].
Qed.

(** The answers of the endpoint.  The answer is 503 exactly when no
    recommender is loaded, and then nothing is called; an answer 400 never
    comes with a call; when the recommender was called, it was called once,
    and the answer is the formatted result of that call, or, when the call
    raised, the error 500 with the message of the exception; a successful
    answer always comes from a call. *)
Theorem recommend_answers (recommender : option ClusteringRecommender)
    (data : option RecommendData) (response : Response)
    (calls : list RecommendCall) :
  recommend recommender data = (response, calls) ->
  (recommender = None <-> exists msg, response = ErrorResponse msg 503)
  /\ (recommender = None -> calls = [])
  /\ (forall msg, response = ErrorResponse msg 400 -> calls = [])
  /\ (forall call,
        In call calls ->
        exists rec,
          recommender = Some rec /\ calls = [call]
          /\ match Recommender.recommend rec (call_target_profile call)
                     (call_constraints call) (call_current_params call) with
             | Ok r =>
                 response = RecommendationResponse (format_recommendations r)
             | Raise e =>
                 response
                 = ErrorResponse ("Recommendation failed: " ++ str_exn e) 500
             end)
  /\ (forall r, response = RecommendationResponse r -> calls <> []).
Proof.
  unfold recommend. intros H.
  assert (H400 : forall msg rec,
             recommender = Some rec ->
             (response, calls) = (ErrorResponse msg 400, []) ->
             (recommender = None <-> exists msg, response = ErrorResponse msg 503)
             /\ (recommender = None -> calls = [])
             /\ (forall msg, response = ErrorResponse msg 400 -> calls = [])
             /\ (forall call,
                   In call calls ->
                   exists rec,
                     recommender = Some rec /\ calls = [call]
                     /\ match Recommender.recommend rec
                                (call_target_profile call)
                                (call_constraints call)
                                (call_current_params call) with
                        | Ok r =>
                            response
                            = RecommendationResponse (format_recommendations r)
                        | Raise e =>
                            response
                            = ErrorResponse
                                ("Recommendation failed: " ++ str_exn e) 500
                        end)
             /\ (forall r, response = RecommendationResponse r -> calls <> [])).
  { intros msg rec -> [= -> ->].
    split; [split; [discriminate | intros [m Hm]; discriminate Hm]|].
    split; [discriminate|]. split; [reflexivity|].
    split; [intros call []|]. intros r Hr. discriminate Hr. }
  destruct recommender as [rec|].
  - destruct data as [d|]; [|exact (H400 _ rec eq_refl (eq_sym H))].
    destruct (empty_body d); [exact (H400 _ rec eq_refl (eq_sym H))|].
    destruct (targetProfile d) as [[|kv tp]|];
      try exact (H400 _ rec eq_refl (eq_sym H)).
    destruct (missing_dims (kv :: tp));
      [|exact (H400 _ rec eq_refl (eq_sym H))].
    destruct (check_values (kv :: tp)) as [dim|profile];
      [exact (H400 _ rec eq_refl (eq_sym H))|].
    clear H400.
    destruct (Recommender.recommend rec profile _ _) as [r|e] eqn:Hcore;
      injection H as <- <-.
    + split; [split; [discriminate | intros [m Hm]; discriminate Hm]|].
      split; [discriminate|]. split; [intros m Hm; discriminate Hm|].
      split; [|intros r' _; discriminate].
      intros call [<- | []]. exists rec. cbn [call_target_profile
        call_constraints call_current_params].
      rewrite Hcore. auto.
    + split; [split; [discriminate | intros [m Hm]; discriminate Hm]|].
      split; [discriminate|]. split; [intros m Hm; discriminate Hm|].
      split; [|intros r' Hr'; discriminate Hr'].
      intros call [<- | []]. exists rec. cbn [call_target_profile
        call_constraints call_current_params].
      rewrite Hcore. auto.
  - injection H as <- <-.
    split; [split; [eauto | reflexivity]|].
    split; [reflexivity|]. split; [reflexivity|].
    split; [intros call []|]. intros r Hr. discriminate Hr.
Qed.

Lemma fit_keeps_n_clusters (self r : ClusteringRecommender)
    (shots_df : DataFrame) :
  fit self shots_df = (Ok tt, r) ->
  n_clusters r = n_clusters self
  /\ exists labels, historical_shots r = Some (set_cluster shots_df labels).
Proof.
  unfold fit. destruct (fit_transform _ _) as [[sc scaled]|e]; [|discriminate].
  destruct (kmeans_fit _ _) as [km|e]; [|discriminate].
  intros [= <-]. simpl. split; [reflexivity|]. now exists (labels_ km).
Qed.

(** A recommender created by [load_models] has between 1 and 5 clusters, at
    most one per ten historical shots, and holds the historical frame with
    a cluster column; none is created unless the prediction model loaded. *)
Theorem loaded_recommender_shape (model_ok : bool)
    (historical_df : option DataFrame) (r : ClusteringRecommender) :
  load_models model_ok historical_df = Some r ->
  model_ok = true
  /\ exists df labels,
       historical_df = Some df
       /\ historical_shots r = Some (set_cluster df labels)
       /\ n_clusters r = Nat.min 5 (len df / 10)
       /\ (1 <= n_clusters r <= 5)%nat
       /\ (n_clusters r * 10 <= len df)%nat.
Proof.
  intros Hload. split.
  - unfold load_models in Hload. destruct model_ok; [reflexivity|discriminate].
  - destruct (load_models_gate _ _ _ Hload) as (df & -> & Hlen & Hfit).
    destruct (fit_keeps_n_clusters _ _ _ Hfit) as (Hn & labels & Hh).
    exists df, labels.
    change (n_clusters r = Nat.min 5 (len df / 10)) in Hn.
    assert (Hdiv : (1 <= len df / 10)%nat).
    { apply Nat.div_le_lower_bound; lia. }
    assert (Hmul : (len df / 10 * 10 <= len df)%nat).
    { rewrite Nat.mul_comm. apply Nat.Div0.mul_div_le. }
    split; [reflexivity|]. split; [exact Hh|]. rewrite Hn.
    split; [reflexivity|]. split; [lia|].
    destruct (Nat.min_spec 5 (len df / 10)) as [[Hm ->] | [Hm ->]]; lia.
Qed.

End Facts.

Lemma recommender_sees_only_valid_profiles_witness :
  let tp := [("sweetness", JNum 8); ("acidity", JNum 5); ("bitterness", JNum 3);
             ("body", JNum 7)]%string in
  let d := {| currentParams := Some []; targetProfile := Some tp;
              constraints := None; other_keys := [] |} in
  exists call,
    snd (recommend (Some recommender12) (Some d)) = [call]
    /\ map fst (call_target_profile call)
       = ["sweetness"; "acidity"; "bitterness"; "body"]%string
    /\ call_current_params call = None.
Proof.
  intros tp d.
  destruct (snd (recommend (Some recommender12) (Some d)))
    as [|call rest] eqn:E; [vm_compute in E; discriminate|].
  destruct (recommender_sees_only_valid_profiles (Some recommender12)
              (Some d) call)
    as (H1 & d' & tp' & Hd & Htp & _ & _ & Hkeys & _ & Hcur).
  { rewrite E. now left. }
  injection Hd as <-. injection Htp as <-.
  exists call. rewrite E in H1. split; [exact H1|].
  split; [exact Hkeys | exact Hcur].
Defined.

Lemma recommend_answers_witness :
  let tp := [("sweetness", JNum 8); ("acidity", JNum 5); ("bitterness", JNum 3);
             ("body", JNum 7)]%string in
  let d := {| currentParams := None; targetProfile := Some tp;
              constraints := None; other_keys := [] |} in
  exists response call,
    recommend (Some recommender12) (Some d) = (response, [call])
    /\ response
       = RecommendationResponse (format_recommendations recommendation_8537).
Proof.
  intros tp d.
  destruct (recommend (Some recommender12) (Some d)) as [response calls]
    eqn:E.
  destruct calls as [|call rest];
    [exfalso; vm_compute in E; discriminate|].
  destruct (proj1 (proj2 (proj2 (proj2
              (recommend_answers (Some recommender12) (Some d) response
                 (call :: rest) E)))) call (or_introl eq_refl))
    as (rec & Hrec & Hcalls & Hresp).
  injection Hrec as <-. injection Hcalls as ->.
  assert (Hcall : call = {| call_target_profile := profile_8537;
                            call_constraints := None;
                            call_current_params := None |})
    by (vm_compute in E; now injection E as _ <-).
  subst call. cbn [call_target_profile call_constraints call_current_params]
    in Hresp.
  assert (Hcore : Recommender.recommend recommender12 profile_8537 None None
                  = Ok recommendation_8537) by (vm_compute; reflexivity).
  rewrite Hcore in Hresp.
  eexists response, _. split; [reflexivity | exact Hresp].
Defined.

Lemma loaded_recommender_shape_witness :
  load_models true (Some shots12) = Some recommender12
  /\ n_clusters recommender12 = 1%nat
  /\ (n_clusters recommender12 * 10 <= len shots12)%nat.
Proof.
  assert (E : load_models true (Some shots12) = Some recommender12)
    by reflexivity.
  destruct (loaded_recommender_shape true (Some shots12) recommender12 E)
    as (_ & df & labels & Hdf & _ & Hn & _ & Hlen).
  injection Hdf as <-.
  split; [exact E|]. split; [exact Hn | exact Hlen].
Defined.

End MlServiceMore.

(** * Properties of the prediction helpers *)

Module PredictionFacts.

Import Recommender MlService Prediction Reference Reference2 RecommenderFacts.
Local Open Scope Q_scope.

Lemma within_range (v : json) (lo hi : Q) :
  within v lo hi = true
  <-> exists q, number_of v = Some q /\ lo <= q /\ q <= hi.
Proof.
  unfold within. destruct (number_of v) as [q|].
  - rewrite negb_true_iff, orb_false_iff. split.
    + intros [H1 H2]. exists q. split; [reflexivity|].
      split; apply Qnot_lt_le; intros H; apply Qlt_b_spec in H; congruence.
    + intros (q' & [= <-] & Hlo & Hhi).
      split; apply not_true_iff_false; intros H; apply Qlt_b_spec in H; lra.
  - split; [discriminate | intros (q & H & _); discriminate].
Qed.

Lemma first_violation_none (table : list (string * (Q * Q * string)))
    (params : list (string * json)) :
  first_violation table params = None
  <-> forall field lo hi msg v,
        In (field, (lo, hi, msg)) table ->
        lookup_key params field = Some v -> within v lo hi = true.
Proof.
  induction table as [|[field [[lo hi] msg]] rest IH]; simpl.
  - split; [intros _ ? ? ? ? ? [] | reflexivity].
  - destruct (lookup_key params field) as [v|] eqn:Hv.
    + destruct (within v lo hi) eqn:Hw.
      * rewrite IH. split.
        -- intros H f l h m v' [[= <- <- <- <-] | Hin] Hl.
           ++ rewrite Hv in Hl. now injection Hl as <-.
           ++ eapply H; eassumption.
        -- intros H f l h m v' Hin Hl. eapply H; [right|]; eassumption.
      * split; [discriminate|]. intros H.
        rewrite (H field lo hi msg v (or_introl eq_refl) Hv) in Hw.
        discriminate.
    + rewrite IH. split.
      * intros H f l h m v' [[= <- <- <- <-] | Hin] Hl;
          [congruence | eapply H; eassumption].
      * intros H f l h m v' Hin Hl. eapply H; [right|]; eassumption.
Qed.

Lemma no_missing_field (params : list (string * json)) :
  List.filter (fun field => negb (has_key params field)) required_fields = []
  <-> forall field, In field required_fields ->
        lookup_key params field <> None.
Proof.
  split.
  - intros Hnil field Hin Hnone.
    assert (Hm : In field (List.filter
                             (fun field => negb (has_key params field))
                             required_fields)).
    { apply filter_In. split; [exact Hin|].
      apply negb_true_iff. now apply has_key_false. }
    rewrite Hnil in Hm. destruct Hm.
  - intros Hall.
    destruct (List.filter _ _) as [|field rest] eqn:E; [reflexivity|].
    assert (Hm : In field (List.filter
                             (fun field => negb (has_key params field))
                             required_fields))
      by (rewrite E; now left).
    apply filter_In in Hm. destruct Hm as [Hin Hk].
    apply negb_true_iff, has_key_false in Hk.
    now destruct (Hall field Hin).
Qed.

Lemma valid_params_fields (params : list (string * json)) :
  validate_prediction_params params = (true, None) ->
  forall field lo hi msg,
    In (field, (lo, hi, msg)) validations ->
    exists v q,
      lookup_key params field = Some v /\ number_of v = Some q
      /\ lo <= q /\ q <= hi.
Proof.
  unfold validate_prediction_params. intros H.
  destruct (List.filter _ required_fields) eqn:Emiss; [|discriminate].
  destruct (first_violation validations params) eqn:Eviol; [discriminate|].
  intros field lo hi msg Hin.
  assert (Hreq : In field required_fields).
  { unfold validations in Hin. simpl in Hin. unfold required_fields.
    simpl. intuition congruence. }
  destruct (lookup_key params field) as [v|] eqn:Hv.
  - apply (proj1 (first_violation_none _ _) Eviol _ _ _ _ _ Hin) in Hv
      as Hw.
    apply within_range in Hw as (q & Hq & Hlo & Hhi). now exists v, q.
  - now destruct (proj1 (no_missing_field params) Emiss field Hreq).
Qed.

Lemma first_violation_first (pre post : list (string * (Q * Q * string)))
    (field : string) (lo hi : Q) (msg : string)
    (params : list (string * json)) (v : json) :
  (forall f l h m w,
     In (f, (l, h, m)) pre -> lookup_key params f = Some w ->
     within w l h = true) ->
  lookup_key params field = Some v -> within v lo hi = false ->
  first_violation (pre ++ (field, (lo, hi, msg)) :: post)%list params
  = Some msg.
Proof.
  intros Hpre Hv Hw. induction pre as [|[f [[l h] m]] pre IH]; simpl.
  - now rewrite Hv, Hw.
  - destruct (lookup_key params f) as [w|] eqn:Ew.
    + rewrite (Hpre f l h m w (or_introl eq_refl) Ew).
      apply IH. intros; eapply Hpre; [right|]; eassumption.
    + apply IH. intros; eapply Hpre; [right|]; eassumption.
Qed.

(** [validate_prediction_params] accepts a request exactly when each of
    grindSize, extractionTime, inWeight and outWeight is present with a
    value that passes the check of its row (it is an int or a float, and
    neither [value < min] nor [value > max] holds: for a value that is the
    number q, when min <= q <= max); no other field is looked at.  A request
    that lacks required fields is answered with the list of the fields it
    lacks, in the order of [required_fields], before any value is checked;
    otherwise the message is the one of the first row, in the order of the
    table, whose check fails. *)
Theorem prediction_params_valid_iff (params : list (string * json)) :
  (validate_prediction_params params = (true, None)
   <-> forall field lo hi msg,
         In (field, (lo, hi, msg)) validations ->
         exists v, lookup_key params field = Some v /\ within v lo hi = true)
  /\ (forall v lo hi q,
        number_of v = Some q -> within v lo hi = true <-> lo <= q /\ q <= hi)
  /\ (forall v lo hi, number_of v = None -> within v lo hi = false)
  /\ (forall missing,
        missing
        = List.filter
            (fun field =>
               match lookup_key params field with
               | Some _ => false
               | None => true
               end)
            ["grindSize"; "extractionTime"; "inWeight"; "outWeight"]%string ->
        missing <> [] ->
        validate_prediction_params params
        = (false,
           Some ("Missing required fields: " ++ String.concat ", " missing)
             %string))
  /\ (forall pre field lo hi msg post v,
        (forall f, In f required_fields -> lookup_key params f <> None) ->
        validations = (pre ++ (field, (lo, hi, msg)) :: post)%list ->
        (forall f l h m w,
           In (f, (l, h, m)) pre -> lookup_key params f = Some w ->
           within w l h = true) ->
        lookup_key params field = Some v -> within v lo hi = false ->
        validate_prediction_params params = (false, Some msg)).
Proof.
  assert (Hfilter : List.filter
                      (fun field => negb (has_key params field))
                      required_fields
                    = List.filter
                        (fun field =>
                           match lookup_key params field with
                           | Some _ => false
                           | None => true
                           end)
                        ["grindSize"; "extractionTime"; "inWeight";
                         "outWeight"]%string).
  { apply filter_ext. intros field. unfold has_key.
    now destruct (lookup_key params field). }
  split; [|split; [|split; [|split]]].
  - split.
    + intros H field lo hi msg Hin.
      destruct (valid_params_fields params H _ _ _ _ Hin)
        as (v & q & Hv & Hq & Hlo & Hhi).
      exists v. split; [exact Hv|]. apply within_range. now exists q.
    + unfold validate_prediction_params. intros H.
      assert (Emiss : List.filter
                        (fun field => negb (has_key params field))
                        required_fields = []).
      { apply no_missing_field. intros field Hin Hnone.
        assert (Hrow : exists lo hi msg,
                   In (field, (lo, hi, msg)) validations).
        { unfold required_fields in Hin. simpl in Hin. unfold validations.
          destruct Hin as [<- | [<- | [<- | [<- | []]]]];
            do 3 eexists; simpl; eauto 6. }
        destruct Hrow as (lo & hi & msg & Hrow).
        destruct (H _ _ _ _ Hrow) as (v & Hv & _). congruence. }
      rewrite Emiss.
      assert (Eviol : first_violation validations params = None).
      { apply first_violation_none. intros field lo hi msg v Hin Hv.
        destruct (H _ _ _ _ Hin) as (v' & Hv' & Hw).
        rewrite Hv in Hv'. now injection Hv' as <-. }
      now rewrite Eviol.
  - intros v lo hi q Hq. rewrite within_range. split.
    + intros (q' & Hq' & H). rewrite Hq in Hq'. now injection Hq' as <-.
    + intros H. now exists q.
  - intros v lo hi Hn. unfold within. now rewrite Hn.
  - intros missing -> Hne. rewrite <- Hfilter in Hne. rewrite <- Hfilter.
    unfold validate_prediction_params.
    destruct (List.filter _ required_fields) as [|f rest];
      [now destruct Hne | reflexivity].
  - intros pre field lo hi msg post v Hall Hsplit Hpre Hv Hw.
    unfold validate_prediction_params.
    rewrite (proj2 (no_missing_field params) Hall), Hsplit.
    now rewrite (first_violation_first pre post field lo hi msg params v
                   Hpre Hv Hw).
Qed.

Lemma extreme_cases (params : list (string * json)) (key : string)
    (default low high : Q) (b : bool) :
  extreme params key default low high = Ok b ->
  low <= default -> default <= high ->
  lookup_key params key = None -> b = false.
Proof.
  unfold extreme. rewrite get_lookup. intros H Hlo Hhi Hn.
  rewrite Hn in H. unfold py_lt, py_gt in H. cbn [number_of bind] in H.
  destruct (Qlt_b default low) eqn:E1.
  - apply Qlt_b_spec in E1. lra.
  - destruct (Qlt_b high default) eqn:E2.
    + apply Qlt_b_spec in E2. lra.
    + now injection H as <-.
Qed.

Lemma extreme_value (params : list (string * json)) (key : string)
    (default low high : Q) (b : bool) :
  extreme params key default low high = Ok b ->
  low <= default -> default <= high ->
  b = out_of_range params key low high.
Proof.
  intros H Hlo Hhi. unfold out_of_range.
  destruct (lookup_key params key) as [v|] eqn:Ev.
  - unfold extreme, py_lt, py_gt in H. rewrite get_lookup, Ev in H.
    destruct (number_of v) as [q|]; [|discriminate].
    cbn [bind] in H. destruct (Qlt_b q low); [now injection H as <-|].
    now injection H as <-.
  - now apply (extreme_cases params key default low high b H Hlo Hhi).
Qed.

Lemma base_confidence_value (params : list (string * json)) (b : Q) :
  base_confidence params = Ok b ->
  b == 0.75 * lowering params "grindSize" 5 20
       * lowering params "temperature" 88 96
       * lowering params "extractionTime" 20 40.
Proof.
  unfold base_confidence. intros H.
  apply bind_ok in H as (g & Hg & H).
  apply bind_ok in H as (t & Ht & H).
  apply bind_ok in H as (e & He & H).
  injection H as <-. unfold lowering.
  rewrite <- (extreme_value _ _ _ _ _ _ Hg) by discriminate.
  rewrite <- (extreme_value _ _ _ _ _ _ Ht) by discriminate.
  rewrite <- (extreme_value _ _ _ _ _ _ He) by discriminate.
  destruct g, t, e; reflexivity.
Qed.

Lemma extreme_ok (params : list (string * json)) (key : string)
    (default low high : Q) :
  is_ok (extreme params key default low high) = true
  <-> (forall v, lookup_key params key = Some v -> number_of v <> None).
Proof.
  unfold extreme, py_lt, py_gt. rewrite get_lookup.
  destruct (lookup_key params key) as [v|].
  - destruct (number_of v) as [q|] eqn:Hq; simpl.
    + split; [intros _ v' [= <-]; congruence|]. intros _.
      now destruct (Qlt_b q low).
    + split; [discriminate|]. intros H. now destruct (H v eq_refl).
  - simpl. split; [intros _ v; discriminate|]. intros _.
    now destruct (Qlt_b default low).
Qed.

Lemma validated_base_confidence (params : list (string * json)) :
  validate_prediction_params params = (true, None) ->
  is_ok (base_confidence params) = false
  <-> exists v, lookup_key params "temperature" = Some v
                /\ number_of v = None.
Proof.
  intros Hvalid.
  assert (Hnum : forall field lo hi msg,
             In (field, (lo, hi, msg)) validations ->
             is_ok (extreme params field lo lo hi) = true).
  { intros field lo hi msg Hin. apply extreme_ok. intros v Hv.
    destruct (valid_params_fields params Hvalid _ _ _ _ Hin)
      as (v' & q & Hv' & Hq & _).
    congruence. }
  assert (Hg : exists g, extreme params "grindSize" 12 5 20 = Ok g).
  { assert (H : is_ok (extreme params "grindSize" 12 5 20) = true).
    { apply extreme_ok. apply (proj1 (extreme_ok params "grindSize" 1 1 50)).
      apply (Hnum _ _ _ "Grind size must be between 1-50"%string).
      simpl. tauto. }
    destruct (extreme params "grindSize" 12 5 20); [eauto | discriminate]. }
  assert (He : exists e, extreme params "extractionTime" 28 20 40 = Ok e).
  { assert (H : is_ok (extreme params "extractionTime" 28 20 40) = true).
    { apply extreme_ok.
      apply (proj1 (extreme_ok params "extractionTime" 10 10 60)).
      apply (Hnum _ _ _
               "Extraction time must be between 10-60 seconds"%string).
      simpl. tauto. }
    destruct (extreme params "extractionTime" 28 20 40);
      [eauto | discriminate]. }
  destruct Hg as [g Hg]. destruct He as [e He].
  unfold base_confidence. rewrite Hg. cbn [bind].
  pose proof (extreme_ok params "temperature" 93 88 96) as Ht.
  destruct (extreme params "temperature" 93 88 96) as [t|err]; cbn [bind].
  - rewrite He. cbn [bind is_ok]. split; [discriminate|].
    intros (v & Hv & Hn). now destruct (proj1 Ht eq_refl v Hv).
  - cbn [is_ok]. split; [|reflexivity]. intros _.
    destruct (lookup_key params "temperature") as [v|].
    + destruct (number_of v) eqn:Hn; [|now exists v].
      assert (H : is_ok (@Raise bool err) = true).
      { apply Ht. intros v' [= <-]. congruence. }
      discriminate.
    + assert (H : is_ok (@Raise bool err) = true)
        by (apply Ht; intros v; discriminate).
      discriminate.
Qed.

Lemma prediction_params_valid_iff_witness :
  validate_prediction_params prediction_params = (true, None)
  /\ (exists v,
        lookup_key prediction_params "grindSize" = Some v
        /\ within v 1 50 = true)
  /\ validate_prediction_params [("grindSize", JNum 12); ("inWeight", JNum 5)]
     = (false, Some "Missing required fields: extractionTime, outWeight").
Proof.
  assert (H : validate_prediction_params prediction_params = (true, None))
    by (vm_compute; reflexivity).
  split; [exact H|]. split.
  - apply (proj1 (proj1 (prediction_params_valid_iff prediction_params)) H
             "grindSize"%string 1 50 "Grind size must be between 1-50"%string).
    simpl; tauto.
  - apply (proj1 (proj2 (proj2 (proj2
             (prediction_params_valid_iff
                [("grindSize", JNum 12); ("inWeight", JNum 5)]))))
             ["extractionTime"; "outWeight"]%string);
      [reflexivity | discriminate].
Defined.

Section Confidence.
Context `{L : SciLib}.

(** The confidence of a prediction starts from 0.75 and is multiplied by
    0.9 for each of grindSize (normal range 5 to 20), temperature (88 to 96)
    and extractionTime (20 to 40) that is present with a number outside its
    range; a parameter that is absent, or present with a number inside its
    range, leaves it as it is.  The overall and shot-quality confidence are
    this base rounded to two places, the four taste confidences are 0.8
    times the base, rounded. *)
Theorem confidence_values (params : list (string * json))
    (confidence : list (string * Q)) :
  calculate_confidence params = Ok confidence ->
  (exists base,
     base == 0.75 * lowering params "grindSize" 5 20
             * lowering params "temperature" 88 96
             * lowering params "extractionTime" 20 40
     /\ confidence
        = [("overall", round base 2); ("shotQuality", round base 2);
           ("sweetness", round (base * 0.8) 2);
           ("acidity", round (base * 0.8) 2);
           ("bitterness", round (base * 0.8) 2);
           ("body", round (base * 0.8) 2)]%string)
  /\ (forall key lo hi,
        lookup_key params key = None -> lowering params key lo hi = 1)
  /\ (forall key v q lo hi,
        lookup_key params key = Some v -> number_of v = Some q ->
        (q < lo \/ hi < q -> lowering params key lo hi = 0.9)
        /\ (lo <= q -> q <= hi -> lowering params key lo hi = 1)).
Proof.
  unfold calculate_confidence. intros H.
  apply bind_ok in H as (base & Hbase & H). injection H as <-.
  split; [|split].
  - exists base. split; [now apply base_confidence_value | reflexivity].
  - intros key lo hi Hn. unfold lowering, out_of_range. now rewrite Hn.
  - intros key v q lo hi Hv Hq. unfold lowering, out_of_range.
    rewrite Hv, Hq. split.
    + intros Hout.
      assert (E : Qlt_b q lo || Qlt_b hi q = true).
      { apply orb_true_iff. rewrite !Qlt_b_spec. exact Hout. }
      now rewrite E.
    + intros Hlo Hhi.
      assert (E : Qlt_b q lo || Qlt_b hi q = false).
      { apply orb_false_iff.
        split; apply not_true_iff_false; intros Hc; apply Qlt_b_spec in Hc;
          lra. }
      now rewrite E.
Qed.

(** The validation of a prediction request does not cover temperature: for
    a validated request the confidence computation raises exactly when the
    temperature is present and is not a number. *)
Theorem validated_confidence_fails_on_temperature
    (params : list (string * json)) :
  validate_prediction_params params = (true, None) ->
  is_ok (calculate_confidence params) = false
  <-> exists v, lookup_key params "temperature" = Some v
                /\ number_of v = None.
Proof.
  intros Hvalid. rewrite <- (validated_base_confidence params Hvalid).
  unfold calculate_confidence.
  now destruct (base_confidence params).
Qed.

End Confidence.

Lemma confidence_values_witness :
  lookup_key prediction_params "temperature" = Some (JNum 97)
  /\ exists confidence base,
       calculate_confidence prediction_params = Ok confidence
       /\ base == 0.675
       /\ lookup_key confidence "overall" = Some (round base 2)
       /\ lookup_key confidence "body" = Some (round (base * 0.8) 2).
Proof.
  split; [reflexivity|].
  destruct (calculate_confidence prediction_params) as [c|] eqn:E;
    [|vm_compute in E; discriminate].
  destruct (confidence_values prediction_params c E)
    as ((base & Hbase & Hc) & _ & _).
  exists c, base. split; [reflexivity|].
  split; [rewrite Hbase; reflexivity|].
  rewrite Hc. split; reflexivity.
Defined.

Lemma validated_confidence_fails_on_temperature_witness :
  validate_prediction_params hot_params = (true, None)
  /\ lookup_key hot_params "temperature" = Some (JStr "hot")
  /\ is_ok (calculate_confidence hot_params) = false.
Proof.
  assert (H : validate_prediction_params hot_params = (true, None))
    by (vm_compute; reflexivity).
  split; [exact H|]. split; [reflexivity|].
  apply (validated_confidence_fails_on_temperature hot_params H).
  exists (JStr "hot"). split; reflexivity.
Defined.

End PredictionFacts.

(** * Properties of the Bayesian recommender *)

Module BayesianFacts.

Import Recommender Bayesian Reference Reference2 RecommenderFacts.
Local Open Scope Q_scope.

Lemma del_key_absent {A} (d : list (string * A)) (key : string) :
  lookup_key d key = None -> del_key d key = d.
Proof.
  induction d as [|[k v] d IH]; simpl; [reflexivity|].
  destruct (String.eqb k key); [discriminate|].
  intros H. now rewrite IH.
Qed.

Lemma del_key_other {A} (d : list (string * A)) (key key' : string) :
  key <> key' -> lookup_key (del_key d key) key' = lookup_key d key'.
Proof.
  intros Hne. induction d as [|[k v] d IH]; simpl; [reflexivity|].
  destruct (String.eqb k key) eqn:Ek.
  - apply String.eqb_eq in Ek. subst k.
    destruct (String.eqb key key') eqn:Ek'; [|reflexivity].
    apply String.eqb_eq in Ek'. contradiction.
  - simpl. now rewrite IH.
Qed.

Lemma del_key_keys {A} (d : list (string * A)) (key k : string) :
  In k (map fst (del_key d key)) -> In k (map fst d).
Proof.
  induction d as [|[k' v] d IH]; simpl; [tauto|].
  destruct (String.eqb k' key); simpl; tauto.
Qed.

Lemma del_key_NoDup {A} (d : list (string * A)) (key : string) :
  List.NoDup (map fst d) -> List.NoDup (map fst (del_key d key)).
Proof.
  induction d as [|[k v] d IH]; simpl; [trivial|].
  intros H. apply List.NoDup_cons_iff in H as [Hk Hd].
  destruct (String.eqb k key); [exact Hd|].
  simpl. apply List.NoDup_cons_iff. split; [|now apply IH].
  intros Hin. apply Hk. eapply del_key_keys, Hin.
Qed.

Lemma del_key_same {A} (d : list (string * A)) (key : string) :
  List.NoDup (map fst d) -> lookup_key (del_key d key) key = None.
Proof.
  induction d as [|[k v] d IH]; simpl; [reflexivity|].
  intros H. apply List.NoDup_cons_iff in H as [Hk Hd].
  destruct (String.eqb k key) eqn:Ek.
  - apply String.eqb_eq in Ek. subst k. now apply RecommenderMore.lookup_key_not_in.
  - simpl. rewrite Ek. now apply IH.
Qed.

Lemma del_fixed_step (bp : list (string * Q)) (param : string) :
  (if has_key bp param then del_key bp param else bp) = del_key bp param.
Proof.
  destruct (has_key bp param) eqn:E; [reflexivity|].
  apply has_key_false in E. now rewrite del_key_absent.
Qed.

Lemma del_fixed_lookup (fixed : list string) (bp : list (string * Q)) :
  List.NoDup (map fst bp) ->
  List.NoDup (map fst (del_fixed bp fixed))
  /\ (forall p, In p fixed -> lookup_key (del_fixed bp fixed) p = None)
  /\ (forall p, ~ In p fixed ->
        lookup_key (del_fixed bp fixed) p = lookup_key bp p).
Proof.
  unfold del_fixed. revert bp.
  induction fixed as [|f fixed IH]; intros bp Hnd; simpl.
  - split; [exact Hnd|]. split; [intros p []|reflexivity].
  - rewrite del_fixed_step.
    destruct (IH (del_key bp f) (del_key_NoDup bp f Hnd)) as (H1 & H2 & H3).
    split; [exact H1|]. split.
    + intros p [<- | Hin].
      * destruct (List.in_dec String.string_dec f fixed) as [Hf | Hf].
        -- now apply H2.
        -- rewrite (H3 f Hf). now apply del_key_same.
      * now apply H2.
    + intros p Hp. rewrite H3 by tauto. apply del_key_other.
      intros ->. apply Hp. now left.
Qed.

Section Facts.
Context `{L : SciLib} `{B : BayesOpt}.

(** What the Bayesian recommender reports as confidence is a tenth of the
    distance between the predicted outcome and the target: it is never
    negative, it is not capped at 1, and of two recommendations the one
    farther from its target carries the higher confidence. *)
Theorem bayes_confidence_grows_with_distance
    (target1 target2 : list (string * Q))
    (bounds1 bounds2 : list (string * (Q * Q)))
    (c1 c2 : option Constraints) (r1 r2 : BayesRecommendation) :
  recommend target1 bounds1 c1 = Ok r1 ->
  recommend target2 bounds2 c2 = Ok r2 ->
  b_confidence r1 == Qabs (b_distanceFromTarget r1) / 10
  /\ 0 <= b_confidence r1
  /\ (Qabs (b_distanceFromTarget r1) <= Qabs (b_distanceFromTarget r2) ->
      b_confidence r1 <= b_confidence r2).
Proof.
  unfold recommend. intros H1 H2.
  apply bind_ok in H1 as ([t1 bp1] & _ & H1).
  apply bind_ok in H1 as (e1 & _ & H1). injection H1 as <-.
  apply bind_ok in H2 as ([t2 bp2] & _ & H2).
  apply bind_ok in H2 as (e2 & _ & H2). injection H2 as <-.
  cbn [b_confidence b_distanceFromTarget fst snd].
  rewrite !Qabs_opp.
  pose proof (Qabs_nonneg t1) as Hn1.
  split; [reflexivity|]. split.
  - apply Qmult_le_0_compat; [exact Hn1 | discriminate].
  - intros Hle. apply Qmult_le_compat_r; [exact Hle | discriminate].
Qed.

(** A parameter named in [fixedParams] is deleted from the optimizer's best
    parameters, not set to a fixed value: it is absent from the primary
    recommendation, every other parameter keeps the optimizer's value, and
    the expected outcome is the prediction for the parameters that remain. *)
Theorem fixed_parameters_are_dropped
    (target : list (string * Q)) (bounds : list (string * (Q * Q)))
    (c : Constraints) (fixed : list string)
    (t : Q) (best_params : list (string * Q)) (r : BayesRecommendation) :
  optimizer_max (objective target) bounds = Ok (t, best_params) ->
  List.NoDup (map fst best_params) ->
  fixedParams c = Some fixed ->
  recommend target bounds (Some c) = Ok r ->
  (forall p, In p fixed -> lookup_key (b_primary r) p = None)
  /\ (forall p, ~ In p fixed ->
        lookup_key (b_primary r) p = lookup_key best_params p)
  /\ predictor_predict (b_primary r) = Ok (b_expectedOutcome r).
Proof.
  intros Hmax Hnd Hfixed. unfold recommend.
  rewrite Hmax, Hfixed. cbn [bind fst snd]. intros H.
  apply bind_ok in H as (e & He & H). injection H as <-.
  cbn [b_primary b_expectedOutcome].
  destruct (del_fixed_lookup fixed best_params Hnd) as (_ & H2 & H3).
  auto.
Qed.

End Facts.

Lemma bayes_confidence_grows_with_distance_witness :
  exists r1 r2,
    recommend profile_8537 sample_bounds None = Ok r1
    /\ recommend [] sample_bounds None = Ok r2
    /\ b_confidence r1 == Qabs (b_distanceFromTarget r1) / 10
    /\ 0 <= b_confidence r1.
Proof.
  destruct (recommend profile_8537 sample_bounds None) as [r1|] eqn:E1;
    [|vm_compute in E1; discriminate].
  destruct (recommend [] sample_bounds None) as [r2|] eqn:E2;
    [|vm_compute in E2; discriminate].
  exists r1, r2.
  destruct (bayes_confidence_grows_with_distance _ _ _ _ _ _ _ _ E1 E2)
    as (Ha & Hb & _).
  auto.
Defined.

Lemma fixed_parameters_are_dropped_witness :
  let c := {| fixedParams := Some ["temperature"%string];
              paramRanges := None |} in
  exists r,
    recommend profile_8537 sample_bounds (Some c) = Ok r
    /\ lookup_key (b_primary r) "temperature" = None
    /\ lookup_key (b_primary r) "grindSize" = Some 12.
Proof.
  intros c.
  destruct (optimizer_max (objective profile_8537) sample_bounds)
    as [[t bp]|] eqn:Emax; [|vm_compute in Emax; discriminate].
  destruct (recommend profile_8537 sample_bounds (Some c)) as [r|] eqn:E;
    [|vm_compute in E; discriminate].
  assert (Hbp : bp = [("grindSize", 12); ("temperature", 92)]%string)
    by (vm_compute in Emax; injection Emax as _ <-; reflexivity).
  assert (Hnd : List.NoDup (map fst bp)).
  { rewrite Hbp. repeat constructor; simpl; intuition discriminate. }
  destruct (fixed_parameters_are_dropped profile_8537 sample_bounds c
              ["temperature"%string] t bp r Emax Hnd eq_refl E)
    as (Hdrop & Hkeep & _).
  exists r. split; [reflexivity|]. split.
  - apply Hdrop. now left.
  - rewrite Hkeep by (simpl; intuition discriminate).
    rewrite Hbp. reflexivity.
Defined.

End BayesianFacts.
